(** * The AI assistant module: interaction-log store, task processor and
      request handlers

    A shallow embedding of
    - [src/database/schema.ts]   (class [DatabaseService]),
    - [services/aiService.ts]    (class [AIService]),
    - [routes/taskRoutes.ts]     (the handlers of [/api/tasks]),
    - [routes/healthRoutes.ts]   (the handler of [/api/health]),
    - [cli/index.ts]             (class [AICLInterface]),
    - [types/index.ts]           ([TaskRequest], [TaskResponse],
                                  [InteractionLog]),
    followed by the properties of the specification that concern them.

    Conventions.
    - A JavaScript string is a Rocq [string] holding its UTF-8 bytes (what
      SQLite stores in a TEXT column and what the source file holds between
      its quotes).
    - A JavaScript number that the code only uses as an integer (limits,
      offsets, milliseconds, row counts) is a [Z]; [NaN] is [None] where it
      can arise.  A [Z] is exact where a double rounds (beyond 2^53): a
      statement that depends on it carries the bound.  The two ratios of [getStats] are exact rationals ([Q]);
      [Binary64.getStats] computes them as the doubles of the code.
    - The clock, the uuid generator and the text-generation backend are
      inputs of the functions that consult them.
    - A method of [DatabaseService] is a computation over the connection
      ([Db]) that returns a value or throws; the connection records whether
      the storage underneath is failing.
    - What is written to the console is left out. *)

From Stdlib Require Import String Ascii List ZArith NArith QArith Bool Lia.
From Stdlib Require Import Sorted Permutation DecimalString Qround Qabs.
From Stdlib Require Import Qpower Lqa.
Import ListNotations.
Local Open Scope string_scope.
Local Open Scope Z_scope.
Set Warnings "-register-all".

(** ** JavaScript built-ins used by the code *)

Module JS.

(** The double-quote character (code 34). *)
Definition dquote : string := String (ascii_of_nat 34) EmptyString.
(** The line feed (code 10). *)
Definition LF : string := String (ascii_of_nat 10) EmptyString.

(** The lines of a template literal, joined by line feeds. *)
Definition lines (ls : list string) : string := String.concat LF ls.

Definition code (a : ascii) : Z := Z.of_N (N_of_ascii a).

(** [String.prototype.toLowerCase], on the ASCII letters: bytes outside
    [A-Z] are kept. *)
Definition lower (a : ascii) : ascii :=
  let x := code a in
  if (65 <=? x) && (x <=? 90) then ascii_of_N (Z.to_N (x + 32)) else a.

Fixpoint toLowerCase (s : string) : string :=
  match s with
  | EmptyString => EmptyString
  | String a r => String (lower a) (toLowerCase r)
  end.

(** [String.prototype.includes]: [includes s sub] is [s.includes(sub)]. *)
Fixpoint includes (s sub : string) : bool :=
  String.prefix sub s ||
  match s with
  | EmptyString => false
  | String _ r => includes r sub
  end.

(** White space and line terminators of ECMAScript, by UTF-8 encoding:
    U+0009..U+000D and U+0020 take one byte; U+00A0 two; U+1680,
    U+2000..U+200A, U+2028, U+2029, U+202F, U+205F, U+3000 and U+FEFF
    three. *)
Definition isWhiteSpace1 (a : ascii) : bool :=
  let x := code a in ((9 <=? x) && (x <=? 13)) || (x =? 32).

Definition isWhiteSpace2 (a b : ascii) : bool :=
  (code a =? 194) && (code b =? 160).

Definition isWhiteSpace3 (a b c : ascii) : bool :=
  let x := code a in let y := code b in let z := code c in
  ((x =? 225) && (y =? 154) && (z =? 128))
  || ((x =? 226) && (y =? 128) &&
      (((128 <=? z) && (z <=? 138)) || (z =? 168) || (z =? 169) || (z =? 175)))
  || ((x =? 226) && (y =? 129) && (z =? 159))
  || ((x =? 227) && (y =? 128) && (z =? 128))
  || ((x =? 239) && (y =? 187) && (z =? 191)).

(** [String.prototype.trimStart]. *)
Fixpoint trimStart (s : string) : string :=
  match s with
  | EmptyString => EmptyString
  | String a r =>
      if isWhiteSpace1 a then trimStart r else
      match r with
      | EmptyString => s
      | String b r2 =>
          if isWhiteSpace2 a b then trimStart r2 else
          match r2 with
          | EmptyString => s
          | String c r3 => if isWhiteSpace3 a b c then trimStart r3 else s
          end
      end
  end.

Definition isEmpty (s : string) : bool :=
  match s with EmptyString => true | String _ _ => false end.

(** [String.prototype.trimEnd]: the string is cut where what remains is
    white space only. *)
Fixpoint trimEnd (s : string) : string :=
  if isEmpty (trimStart s) then EmptyString else
  match s with
  | EmptyString => EmptyString
  | String a r => String a (trimEnd r)
  end.

(** [String.prototype.trim]. *)
Definition trim (s : string) : string := trimEnd (trimStart s).

(** The value of a digit in the given radix, [None] when the byte is not
    a digit of that radix. *)
Definition digit_value (radix : Z) (a : ascii) : option Z :=
  let x := code a in
  let v := if (48 <=? x) && (x <=? 57) then Some (x - 48)
           else if (97 <=? x) && (x <=? 122) then Some (x - 87)
           else if (65 <=? x) && (x <=? 90) then Some (x - 55)
           else None in
  match v with
  | Some d => if d <? radix then Some d else None
  | None => None
  end.

(** The longest prefix of digits, read as an integer; [acc] is [None]
    until a digit was read. *)
Fixpoint digits (radix : Z) (s : string) (acc : option Z) : option Z :=
  match s with
  | EmptyString => acc
  | String a r =>
      match digit_value radix a with
      | Some d =>
          digits radix r
            (Some (radix * (match acc with Some n => n | None => 0 end) + d))
      | None => acc
      end
  end.

(** [parseInt(string)] with no radix argument: leading white space is
    skipped, then an optional sign, then an optional [0x]/[0X] that
    selects radix 16, then the digits; [None] is [NaN]. *)
Definition parseInt (s : string) : option Z :=
  let S0 := trimStart s in
  let '(sign, S1) :=
    match S0 with
    | String a r =>
        if code a =? 45 then (-1, r)
        else if code a =? 43 then (1, r)
        else (1, S0)
    | EmptyString => (1, S0)
    end in
  let '(R, S2) :=
    match S1 with
    | String a (String b r) =>
        if (code a =? 48) && ((code b =? 120) || (code b =? 88))
        then (16, r) else (10, S1)
    | _ => (10, S1)
    end in
  match digits R S2 None with
  | Some n => Some (sign * n)
  | None => None
  end.

(** [x || d] on numbers: [NaN] and zero are falsy. *)
Definition number_or (x : option Z) (d : Z) : Z :=
  match x with
  | None => d
  | Some n => if n =? 0 then d else n
  end.

(** Values.  A number is finite (kept as an integer), or one of the three
    non-finite values. *)
Inductive number : Type :=
| Finite (n : Z)
| NaN
| Infinity
| NegInfinity.

Inductive value : Type :=
| Undefined
| Null
| Bool (b : bool)
| Number (n : number)
| Str (s : string)
| Array (elems : list value)
| Object (props : list (string * value)).

(** [Record<string, any>]: the own properties, in order. *)
Definition record : Type := list (string * value).

(** [typeof v === 'string']. *)
Definition isString (v : value) : bool :=
  match v with Str _ => true | _ => false end.

(** Truthiness ([!v] is its negation). *)
Definition truthy (v : value) : bool :=
  match v with
  | Undefined | Null => false
  | Bool b => b
  | Number (Finite n) => negb (n =? 0)
  | Number NaN => false
  | Number _ => true
  | Str s => negb (isEmpty s)
  | Array _ | Object _ => true
  end.

(** Truthiness of an optional string ([undefined] when absent). *)
Definition truthy_str (o : option string) : bool :=
  match o with
  | Some s => negb (isEmpty s)
  | None => false
  end.

(** Property read [o.k] on a record ([None]: no such own property). *)
Fixpoint get (k : string) (o : record) : option value :=
  match o with
  | [] => None
  | (k', v) :: rest => if String.eqb k k' then Some v else get k rest
  end.

(** Property read [v.k] on a value. *)
Definition prop (k : string) (v : value) : option value :=
  match v with
  | Object props => get k props
  | _ => None
  end.

(** The values JSON can spell: built from [null], booleans, finite
    numbers, strings, arrays and plain objects, with no [undefined] and
    no non-finite number at any depth. *)
Fixpoint representable (v : value) : bool :=
  match v with
  | Undefined => false
  | Null | Bool _ | Str _ => true
  | Number (Finite _) => true
  | Number _ => false
  | Array elems => forallb representable elems
  | Object props => forallb (fun p => representable (snd p)) props
  end.

(** A JSON document (ECMA-404). *)
Inductive json : Type :=
| JNull
| JBool (b : bool)
| JNumber (n : Z)
| JString (s : string)
| JArray (elems : list json)
| JObject (members : list (string * json)).

(** [JSON.stringify]: [None] is the result [undefined].  The text is
    kept as the document it spells.  A property whose value is
    [undefined] is left out, an [undefined] array element is written
    [null], a non-finite number is written [null]. *)
Fixpoint JSON_stringify (v : value) : option json :=
  match v with
  | Undefined => None
  | Null => Some JNull
  | Bool b => Some (JBool b)
  | Number (Finite n) => Some (JNumber n)
  | Number _ => Some JNull
  | Str s => Some (JString s)
  | Array elems =>
      Some (JArray (map (fun e => match JSON_stringify e with
                                  | Some j => j
                                  | None => JNull
                                  end) elems))
  | Object props =>
      Some (JObject
        (flat_map (fun p => match JSON_stringify (snd p) with
                            | Some j => [(fst p, j)]
                            | None => []
                            end) props))
  end.

(** [JSON.parse] of a document. *)
Fixpoint JSON_parse (j : json) : value :=
  match j with
  | JNull => Null
  | JBool b => Bool b
  | JNumber n => Number (Finite n)
  | JString s => Str s
  | JArray elems => Array (map JSON_parse elems)
  | JObject members =>
      Object (map (fun m => (fst m, JSON_parse (snd m))) members)
  end.

(** What a thrown value is: an instance of [Error] (with its message; the
    engine's [SqliteError] carries a result code as well) or anything
    else. *)
Inductive exn : Type :=
| Error (message : string)
| SqliteError (code message : string)
| Thrown (v : value).

(** The message of an instance of [Error], [None] for any other thrown
    value ([error instanceof Error] fails on it). *)
Definition message (e : exn) : option string :=
  match e with
  | Error m => Some m
  | SqliteError _ m => Some m
  | Thrown _ => None
  end.

(** How a call ends: it returns (an [async] function: its promise is
    fulfilled) or throws (the promise is rejected). *)
Inductive outcome (A : Type) : Type :=
| Returned (a : A)
| Threw (e : exn).
Arguments Returned {A} a.
Arguments Threw {A} e.

End JS.

(** ** [types/index.ts] *)

Inductive Priority : Type := low | medium | high.

Definition priority_text (p : Priority) : string :=
  match p with
  | low => "low"
  | medium => "medium"
  | high => "high"
  end.

Module TaskRequest.
Record t : Type := mk
  { task : string;
    context : option string;
    priority : option Priority }.
End TaskRequest.

Module TaskResponse.
Record t : Type := mk
  { id : string;
    task : string;
    response : string;
    status : string;
    timestamp : string;
    processingTime : Z;
    metadata : JS.value }.
End TaskResponse.

(** An optional property is [None] when it is [undefined] or [null];
    [metadata] is the value itself ([Undefined] when absent). *)
Module InteractionLog.
Record t : Type := mk
  { id : string;
    task : string;
    response : string;
    status : string;
    timestamp : string;
    processingTime : Z;
    userAgent : option string;
    ipAddress : option string;
    metadata : JS.value }.
End InteractionLog.

(** ** The embedded engine ([better-sqlite3] over one SQLite file) *)

Module Engine.
Import JS.

(** A row of [interaction_logs], column by column (NULL is [None]):
<<
    id TEXT PRIMARY KEY,
    task TEXT NOT NULL,
    response TEXT NOT NULL,
    status TEXT NOT NULL CHECK (status IN ('success', 'error')),
    timestamp TEXT NOT NULL,
    processing_time INTEGER NOT NULL,
    user_agent TEXT,
    ip_address TEXT,
    metadata TEXT
>>
    The [metadata] text is kept as the JSON document it spells. *)
Record Row : Type := mkRow
  { id : string;
    task : string;
    response : string;
    status : string;
    timestamp : string;
    processing_time : Z;
    user_agent : option string;
    ip_address : option string;
    metadata : option json }.

(** The connection: the table, in insertion order, and the fault of the
    storage underneath, if there is one ([Some e]: the file cannot be read
    or written, the database is locked, the connection was closed, ...;
    every statement then throws [e]). *)
Record Db : Type := mkDb
  { interaction_logs : list Row;
    fault : option exn }.

(** A computation over the connection. *)
Definition M (A : Type) : Type := Db -> outcome A * Db.

Definition ret {A : Type} (a : A) : M A := fun db => (Returned a, db).

Definition bind {A B : Type} (c : M A) (k : A -> M B) : M B :=
  fun db =>
    match c db with
    | (Returned a, db') => k a db'
    | (Threw e, db') => (Threw e, db')
    end.

Definition throw {A : Type} (e : exn) : M A := fun db => (Threw e, db).

(** [try { c } catch (error) { handler error }] *)
Definition try_catch {A : Type} (c : M A) (handler : exn -> M A) : M A :=
  fun db =>
    match c db with
    | (Returned a, db') => (Returned a, db')
    | (Threw e, db') => handler e db'
    end.

(** [this.db.prepare(query)] followed by the execution of the statement:
    a storage fault is thrown, otherwise the statement runs.  A statement
    that throws leaves the table as it was. *)
Definition prepare {A : Type} (run : list Row -> outcome A * list Row)
  : M A :=
  fun db =>
    match fault db with
    | Some e => (Threw e, db)
    | None =>
        let '(o, rows) := run (interaction_logs db) in
        (o, mkDb rows (fault db))
    end.

Definition has_id (i : string) (rows : list Row) : bool :=
  existsb (fun r => String.eqb (id r) i) rows.

(** [CHECK (status IN ('success', 'error'))] *)
Definition check_status (s : string) : bool :=
  String.eqb s "success" || String.eqb s "error".

(** [INSERT INTO interaction_logs (...) VALUES (?, ?, ?, ?, ?, ?, ?, ?, ?)]:
    the CHECK constraint, then the uniqueness of the primary key. *)
Definition insert (r : Row) : M unit :=
  prepare (fun rows =>
    if negb (check_status (status r)) then
      (Threw (SqliteError "SQLITE_CONSTRAINT_CHECK"
                "CHECK constraint failed: status IN ('success', 'error')"),
       rows)
    else if has_id (id r) rows then
      (Threw (SqliteError "SQLITE_CONSTRAINT_PRIMARYKEY"
                "UNIQUE constraint failed: interaction_logs.id"),
       rows)
    else (Returned tt, (rows ++ [r])%list)).

(** [ORDER BY timestamp DESC]: TEXT is compared byte by byte.  SQL leaves
    the order of rows with equal keys to the engine; the engine reads
    [idx_timestamp] backwards, which returns rows of equal timestamp the
    last inserted first.  [insert_desc r sorted] places a row inserted
    before those of [sorted]. *)
Fixpoint insert_desc (r : Row) (sorted : list Row) : list Row :=
  match sorted with
  | [] => [r]
  | x :: rest =>
      if String.ltb (timestamp x) (timestamp r) then r :: sorted
      else x :: insert_desc r rest
  end.

Definition order_by_timestamp_desc (rows : list Row) : list Row :=
  fold_right insert_desc [] rows.

(** A number is bound as a double; where the engine wants an integer
    (LIMIT, OFFSET) it takes the double only when it is an integer strictly
    between -2^63 and 2^63, and fails with a datatype mismatch otherwise. *)
Definition in_int64 (n : Z) : bool := (- 2 ^ 63 <? n) && (n <? 2 ^ 63).

(** [LIMIT ? OFFSET ?]: a negative limit is no limit, a negative offset
    is zero. *)
Definition limit_offset (limit offset : Z) (rows : list Row) : list Row :=
  let rest := skipn (Z.to_nat offset) rows in
  if limit <? 0 then rest else firstn (Z.to_nat limit) rest.

(** [SELECT * FROM interaction_logs ORDER BY timestamp DESC
     LIMIT ? OFFSET ?] *)
Definition select_page (limit offset : Z) : M (list Row) :=
  prepare (fun rows =>
    if in_int64 limit && in_int64 offset then
      (Returned (limit_offset limit offset (order_by_timestamp_desc rows)),
       rows)
    else
      (Threw (SqliteError "SQLITE_MISMATCH" "datatype mismatch"), rows)).

(** [SELECT * FROM interaction_logs WHERE id = ?] *)
Definition select_by_id (i : string) : M (option Row) :=
  prepare (fun rows =>
    (Returned (find (fun r => String.eqb (id r) i) rows), rows)).

(** The one row of the statistics query; SUM and AVG are NULL over an
    empty table. *)
Record StatsRow : Type := mkStatsRow
  { total : Z;
    success : option Z;
    avg_time : option Q }.

(** [CASE WHEN status = 'success' THEN 1 ELSE 0 END] *)
Definition case_success (r : Row) : Z :=
  if String.eqb (status r) "success" then 1 else 0.

Definition SUM (xs : list Z) : Z := fold_right Z.add 0 xs.

(** [SELECT COUNT( * ) as total, SUM(CASE ...) as success,
     AVG(processing_time) as avg_time FROM interaction_logs] *)
Definition select_stats : M StatsRow :=
  prepare (fun rows =>
    let count := Z.of_nat (List.length rows) in
    (Returned
       match rows with
       | [] => mkStatsRow count None None
       | _ :: _ =>
           mkStatsRow count
             (Some (SUM (map case_success rows)))
             (Some (inject_Z (SUM (map processing_time rows))
                    / inject_Z count)%Q)
       end,
     rows)).

(** [DELETE FROM interaction_logs WHERE id = ?], returning [changes]. *)
Definition delete_by_id (i : string) : M Z :=
  prepare (fun rows =>
    let kept := filter (fun r => negb (String.eqb (id r) i)) rows in
    (Returned (Z.of_nat (List.length rows - List.length kept)), kept)).

(** [DELETE FROM interaction_logs], returning [changes]. *)
Definition delete_all : M Z :=
  prepare (fun rows => (Returned (Z.of_nat (List.length rows)), [])).

End Engine.

Declare Scope store_scope.
Delimit Scope store_scope with store.
Notation "x <- c ;; k" := (Engine.bind c (fun x => k))
  (at level 61, c at next level, right associativity) : store_scope.

(** ** [src/database/schema.ts]: class [DatabaseService] *)

Module DatabaseService.
Import JS Engine.
Local Open Scope store_scope.

(** The values bound to the nine parameters of [insertQuery]. *)
Definition row_of_log (log : InteractionLog.t) : Row :=
  mkRow
    (InteractionLog.id log)
    (InteractionLog.task log)
    (InteractionLog.response log)
    (InteractionLog.status log)
    (InteractionLog.timestamp log)
    (InteractionLog.processingTime log)
    (if truthy_str (InteractionLog.userAgent log)
     then InteractionLog.userAgent log else None)
    (if truthy_str (InteractionLog.ipAddress log)
     then InteractionLog.ipAddress log else None)
    (if truthy (InteractionLog.metadata log)
     then JSON_stringify (InteractionLog.metadata log) else None).

(** The object built from a row by [getInteractionLogs] and
    [getInteractionLogById]; a JSON text is never the empty string, so
    [row.metadata] is truthy exactly when it is not NULL. *)
Definition log_of_row (row : Row) : InteractionLog.t :=
  InteractionLog.mk
    (id row)
    (task row)
    (response row)
    (status row)
    (timestamp row)
    (processing_time row)
    (user_agent row)
    (ip_address row)
    (match metadata row with
     | Some text => JSON_parse text
     | None => Undefined
     end).

Definition saveInteractionLog (log : InteractionLog.t) : M unit :=
  insert (row_of_log log).

Definition getInteractionLogs (limit offset : Z) : M (list InteractionLog.t) :=
  rows <- select_page limit offset ;;
  ret (map log_of_row rows).

Definition getInteractionLogById (i : string) : M (option InteractionLog.t) :=
  row <- select_by_id i ;;
  match row with
  | None => ret None
  | Some r => ret (Some (log_of_row r))
  end.

Record Stats : Type := mkStats
  { totalInteractions : Z;
    successRate : Q;
    averageProcessingTime : Q }.

(** [x || 0] on a nullable rational. *)
Definition or_zero (x : option Q) : Q :=
  match x with
  | Some q => if Qeq_bool q 0 then 0%Q else q
  | None => 0%Q
  end.

(** A number out of a nullable integer column, as division coerces it
    ([null] to 0). *)
Definition to_number (x : option Z) : Q :=
  match x with
  | Some n => inject_Z n
  | None => 0%Q
  end.

Definition getStats : M Stats :=
  try_catch
    (result <- select_stats ;;
     ret (mkStats
            (number_or (Some (total result)) 0)
            (if total result >? 0
             then (to_number (success result) / inject_Z (total result)
                   * 100)%Q
             else 0%Q)
            (or_zero (avg_time result))))
    (fun error => ret (mkStats 0 0%Q 0%Q)).

Definition deleteInteractionLog (i : string) : M bool :=
  try_catch
    (changes <- delete_by_id i ;;
     ret (changes >? 0))
    (fun error => ret false).

Definition deleteAllInteractionLogs : M Z :=
  try_catch
    (changes <- delete_all ;;
     ret changes)
    (fun error => ret 0).

End DatabaseService.

(** ** The arithmetic of [getStats] in IEEE 754 doubles

    A JavaScript number and an SQLite REAL are binary64 values: each
    division and each product is the value nearest to the exact result
    among those with a significand of 53 bits, a tie going to the even
    significand.  The range of the exponent is left out: the counts and
    the ratios of [getStats] lie far inside it. *)

Module Binary64.
Import JS Engine.
Local Open Scope store_scope.

(** The integer nearest to [q], a tie going to the even one. *)
Definition nearest_even (q : Q) : Z :=
  let f := Qfloor q in
  match (q - inject_Z f ?= 1 # 2)%Q with
  | Lt => f
  | Gt => f + 1
  | Eq => if Z.even f then f else f + 1
  end.

(** The exponent [e] of a positive [q]: [2^52 <= q / 2^e < 2^53]. *)
Definition exponent (q : Q) : Z :=
  let e := Z.log2 (Qnum q) - Z.log2 (Zpos (Qden q)) - 53 in
  if Qle_bool (2 ^ (e + 53)) q then e + 1 else e.

Definition round_positive (q : Q) : Q :=
  let e := exponent q in
  (inject_Z (nearest_even (q / 2 ^ e)) * 2 ^ e)%Q.

(** The double nearest to [q]. *)
Definition round (q : Q) : Q :=
  match Qnum q with
  | Z0 => 0%Q
  | Zpos _ => round_positive q
  | Zneg _ => (- round_positive (- q))%Q
  end.

(** [a / b] and [a * b] on doubles. *)
Definition div (a b : Q) : Q := round (a / b).
Definition mul (a b : Q) : Q := round (a * b).

(** [getStats] with its two ratios computed in doubles: the division and
    the product of [(result.success / result.total) * 100], and the
    division of the engine's [AVG], whose sum is an integer. *)
Definition getStats : M DatabaseService.Stats :=
  try_catch
    (result <- select_stats ;;
     ret (DatabaseService.mkStats
            (number_or (Some (total result)) 0)
            (if total result >? 0
             then mul (div (DatabaseService.to_number (success result))
                         (inject_Z (total result)))
                      100
             else 0%Q)
            (DatabaseService.or_zero (option_map round (avg_time result)))))
    (fun error => ret (DatabaseService.mkStats 0 0%Q 0%Q)).

End Binary64.

(** ** [services/aiService.ts]: class [AIService] *)

Module AIService.
Import JS.

(** The completion the backend answers with, as far as the code reads
    it: [completion.choices[0]?.message?.content].  [choices] is [None]
    when the answer has no such property. *)
Record Message : Type := mkMessage { content : option string }.
Record Choice : Type := mkChoice { message : option Message }.
Record ChatCompletion : Type := mkChatCompletion
  { choices : option (list Choice) }.

(** The argument of [openai.chat.completions.create]; a message is a
    role and a content. *)
Record ChatParams : Type := mkChatParams
  { model : string;
    messages : list (string * string);
    max_tokens : Z;
    temperature : Q }.

(** What one call of a strategy consults outside itself: the uuid it
    draws, the clock at entry ([Date.now()]) and when the result is built
    ([Date.now()], [toISOString()], [toLocaleString()]), and the backend.
    The delay of the simulation only moves the second clock reading. *)
Record World : Type := mkWorld
  { uuidv4 : string;
    startTime : Z;
    Date_now : Z;
    toISOString : string;
    toLocaleString : string;
    create : ChatParams -> outcome ChatCompletion }.

(** The five system prompts of [getSystemPrompt]. *)
Definition analysisPrompt : string :=
  lines
    [ "You are a data analysis assistant. Provide clear, structured analysis with actionable insights. ";
      "      Format your response with bullet points and include key metrics when relevant." ].

Definition summaryPrompt : string :=
  lines
    [ "You are a summarization expert. Create concise, well-structured summaries that capture the key points. ";
      "      Use clear headings and bullet points for better readability." ].

Definition reportPrompt : string :=
  lines
    [ "You are a professional report writer. Create structured, professional reports with clear sections. ";
      "      Include relevant details and maintain a formal tone." ].

Definition leadPrompt : string :=
  lines
    [ "You are a business development assistant. Focus on actionable insights for lead management and client relations. ";
      "      Provide specific recommendations and next steps." ].

Definition defaultPrompt : string :=
  lines
    [ "You are a helpful AI assistant. Provide clear, accurate, and actionable responses. ";
      "    Structure your answers logically and include relevant details." ].

Definition getSystemPrompt (task : string) : string :=
  let taskLower := toLowerCase task in
  if includes taskLower "analyze" || includes taskLower "analysis"
  then analysisPrompt
  else if includes taskLower "summarize" || includes taskLower "summary"
  then summaryPrompt
  else if includes taskLower "report" || includes taskLower "update"
  then reportPrompt
  else if includes taskLower "lead" || includes taskLower "client"
  then leadPrompt
  else defaultPrompt.

(** [request.priority || 'medium'] *)
Definition priority_or_medium (request : TaskRequest.t) : string :=
  match TaskRequest.priority request with
  | Some p => priority_text p
  | None => "medium"
  end.

Definition buildUserPrompt (request : TaskRequest.t) : string :=
  let prompt := "Task: " ++ TaskRequest.task request in
  let prompt :=
    match TaskRequest.context request with
    | Some c =>
        if truthy_str (Some c)
        then prompt ++ LF ++ LF ++ "Context: " ++ c
        else prompt
    | None => prompt
    end in
  let prompt :=
    match TaskRequest.priority request with
    | Some p => prompt ++ LF ++ LF ++ "Priority: " ++ priority_text p
    | None => prompt
    end in
  prompt.

(** [x || 'No response generated'] on an optional string. *)
Definition content_or (x : option string) (d : string) : string :=
  match x with
  | Some s => if truthy_str (Some s) then s else d
  | None => d
  end.

Definition generateResponse (w : World) (request : TaskRequest.t)
  : outcome string :=
  let systemPrompt := getSystemPrompt (TaskRequest.task request) in
  let userPrompt := buildUserPrompt request in
  match create w
          (mkChatParams "gpt-3.5-turbo"
             [("system", systemPrompt); ("user", userPrompt)]
             500 (7 # 10))
  with
  | Threw e => Threw e
  | Returned completion =>
      match choices completion with
      | None =>
          Threw (Error "Cannot read properties of undefined (reading '0')")
      | Some cs =>
          Returned
            (content_or
               match cs with
               | c :: _ =>
                   match message c with
                   | Some m => content m
                   | None => None
                   end
               | [] => None
               end
               "No response generated")
      end
  end.

(** The value of an optional string property. *)
Definition optional (x : option string) : value :=
  match x with
  | Some s => Str s
  | None => Undefined
  end.

(** [error instanceof Error ? error.message : 'Unknown error'] *)
Definition error_message (error : exn) : string :=
  match JS.message error with
  | Some m => m
  | None => "Unknown error"
  end.

Definition processTask (w : World) (request : TaskRequest.t)
  : outcome TaskResponse.t :=
  let taskId := uuidv4 w in
  match generateResponse w request with
  | Returned response =>
      let processingTime := Date_now w - startTime w in
      Returned
        (TaskResponse.mk
           taskId
           (TaskRequest.task request)
           response
           "success"
           (toISOString w)
           processingTime
           (Object
              [("priority", Str (priority_or_medium request));
               ("context", optional (TaskRequest.context request));
               ("model", Str "gpt-3.5-turbo")]))
  | Threw error =>
      let processingTime := Date_now w - startTime w in
      Returned
        (TaskResponse.mk
           taskId
           (TaskRequest.task request)
           ("Error processing task: " ++ error_message error)
           "error"
           (toISOString w)
           processingTime
           (Object
              [("priority", Str (priority_or_medium request));
               ("context", optional (TaskRequest.context request));
               ("error", Str (error_message error))]))
  end.

(** The three canned reports of [simulateTaskProcessing]. *)
Definition leadAnalysisReport : string :=
  lines
    [ "Lead Analysis Report:";
      "      ";
      "ğŸ“Š **Summary**";
      "- Total leads: 150";
      "- Qualified leads: 45 (30%)";
      "- Hot prospects: 12 (8%)";
      EmptyString;
      "ğŸ¯ **Top Performing Sources**";
      "1. LinkedIn (35% conversion)";
      "2. Website referrals (28% conversion)";
      "3. Email campaigns (22% conversion)";
      EmptyString;
      "ğŸ“ˆ **Recommendations**";
      "- Focus on LinkedIn lead nurturing";
      "- Optimize website conversion funnel";
      "- Implement lead scoring system";
      EmptyString;
      "â° **Next Steps**";
      "- Schedule follow-up calls for hot prospects";
      "- Create targeted content for qualified leads";
      "- Review and update lead qualification criteria" ].

Definition callSummaryReport : string :=
  lines
    [ "Call Summary Report:";
      EmptyString;
      "ğŸ“ **Call Overview**";
      "- Total calls: 25";
      "- Average duration: 12 minutes";
      "- Follow-up required: 8 calls";
      EmptyString;
      "ğŸ¯ **Key Outcomes**";
      "- 5 new qualified leads identified";
      "- 3 product demos scheduled";
      "- 2 pricing discussions initiated";
      EmptyString;
      "ğŸ“ **Action Items**";
      "- Follow up with 3 prospects by Friday";
      "- Send product information to 5 leads";
      "- Schedule technical demo for enterprise client";
      EmptyString;
      "âš ï¸ **Issues Identified**";
      "- 2 prospects mentioned budget constraints";
      "- 1 lead needs additional technical validation" ].

Definition clientReportUpdate : string :=
  lines
    [ "Client Report Update:";
      EmptyString;
      "ğŸ“‹ **Report Status: Updated**";
      EmptyString;
      "ğŸ“Š **Key Metrics**";
      "- Client satisfaction: 4.8/5";
      "- Project completion: 85%";
      "- On-time delivery: 92%";
      EmptyString;
      "ğŸ¯ **Recent Achievements**";
      "- Completed Phase 2 deliverables";
      "- Resolved 3 critical issues";
      "- Implemented requested feature updates";
      EmptyString;
      "ğŸ“ˆ **Progress Summary**";
      "- Milestone 1: âœ… Completed";
      "- Milestone 2: âœ… Completed  ";
      "- Milestone 3: ğŸ”„ In Progress (85% complete)";
      "- Milestone 4: â³ Pending";
      EmptyString;
      "ğŸ“… **Next Steps**";
      "- Complete final testing phase";
      "- Prepare final deliverables";
      "- Schedule project review meeting" ].

(** The acknowledgement of any other task. *)
Definition acknowledgement (w : World) (request : TaskRequest.t) : string :=
  lines
    [ "Task completed successfully: " ++ dquote
        ++ TaskRequest.task request ++ dquote;
      EmptyString;
      "âœ… **Status**: Completed";
      "ğŸ“… **Timestamp**: " ++ toLocaleString w;
      "ğŸ¯ **Priority**: " ++ priority_or_medium request;
      EmptyString;
      match TaskRequest.context request with
      | Some c =>
          if truthy_str (Some c) then "ğŸ“ **Context**: " ++ c else EmptyString
      | None => EmptyString
      end;
      EmptyString;
      "The task has been processed and is ready for review." ].

Definition simulateTaskProcessing (w : World) (request : TaskRequest.t)
  : outcome TaskResponse.t :=
  let taskId := uuidv4 w in
  let taskLower := toLowerCase (TaskRequest.task request) in
  let response :=
    if includes taskLower "analyze leads" then leadAnalysisReport
    else if includes taskLower "summarize calls" then callSummaryReport
    else if includes taskLower "update client report"
    then clientReportUpdate
    else acknowledgement w request in
  let processingTime := Date_now w - startTime w in
  Returned
    (TaskResponse.mk
       taskId
       (TaskRequest.task request)
       response
       "success"
       (toISOString w)
       processingTime
       (Object
          [("priority", Str (priority_or_medium request));
           ("context", optional (TaskRequest.context request));
           ("simulated", Bool true)])).

End AIService.

(** ** [routes/taskRoutes.ts]: the handlers of [/api/tasks] *)

Module TaskRoutes.
Import JS Engine.
Local Open Scope store_scope.

(** What the handlers read of a request: the three properties of
    [req.body] (the type of [task] is checked by the handler, so it is any
    value; the other two are taken at their declared types), the two
    query parameters, [req.params.id], [req.get('User-Agent')] and
    [req.ip]. *)
Record Request : Type := mkRequest
  { body_task : value;
    body_context : option string;
    body_priority : option Priority;
    query_limit : option string;
    query_offset : option string;
    params_id : string;
    user_agent : option string;
    ip : option string }.

Inductive Data : Type :=
| TaskData (r : TaskResponse.t)
| LogsData (logs : list InteractionLog.t)
| LogData (log : InteractionLog.t)
| StatsData (stats : DatabaseService.Stats)
| DeletedCount (deletedCount : Z).

(** [ApiResponse] of [types/index.ts]. *)
Record ApiResponse : Type := mkApiResponse
  { success : bool;
    data : option Data;
    error : option string;
    message : option string }.

(** What was sent: [res.status(code).json(body)]; [res.json(body)] sends
    with status 200. *)
Record Response : Type := mkResponse
  { statusCode : Z;
    json : ApiResponse }.

Definition failure (code : Z) (err : string) : Response :=
  mkResponse code (mkApiResponse false None (Some err) None).

Definition ok (d : option Data) (msg : string) : Response :=
  mkResponse 200 (mkApiResponse true d None (Some msg)).

(** [await p] inside a [try]: a rejected promise throws. *)
Definition await {A : Type} (p : outcome A) : M A :=
  match p with
  | Returned a => ret a
  | Threw e => throw e
  end.

(** A number inside a template literal. *)
Definition decimal (n : Z) : string :=
  DecimalString.NilZero.string_of_int (Z.to_int n).

(** [parseInt(req.query.x as string)]: an absent parameter is
    [undefined], which [parseInt] reads as the text [undefined]. *)
Definition parseInt_query (x : option string) : option Z :=
  match x with
  | Some s => parseInt s
  | None => parseInt "undefined"
  end.

(** [router.post('/process', ...)]; [OPENAI_API_KEY] is
    [process.env.OPENAI_API_KEY]. *)
Definition post_process (OPENAI_API_KEY : option string)
    (w : AIService.World) (req : Request) : M Response :=
  try_catch
    (let task := body_task req in
     match task with
     | Str s =>
         if negb (truthy task) || (String.length (trim s) =? 0)%nat
         then
           ret (failure 400
                  "Task is required and must be a non-empty string")
         else
           let taskRequest :=
             TaskRequest.mk (trim s) (body_context req)
               (body_priority req) in
           response <-
             await (if truthy_str OPENAI_API_KEY
                    then AIService.processTask w taskRequest
                    else AIService.simulateTaskProcessing w taskRequest) ;;
           let interactionLog :=
             InteractionLog.mk
               (TaskResponse.id response)
               (TaskResponse.task response)
               (TaskResponse.response response)
               (TaskResponse.status response)
               (TaskResponse.timestamp response)
               (TaskResponse.processingTime response)
               (user_agent req)
               (ip req)
               (TaskResponse.metadata response) in
           _ <- DatabaseService.saveInteractionLog interactionLog ;;
           ret (ok (Some (TaskData response)) "Task processed successfully")
     | _ =>
         (* [!task || typeof task !== 'string'] *)
         ret (failure 400
                "Task is required and must be a non-empty string")
     end)
    (fun error =>
       ret (failure 500 "Internal server error while processing task")).

(** The two arguments [router.get('/logs', ...)] passes to the store. *)
Definition logs_limit (req : Request) : Z :=
  Z.min (number_or (parseInt_query (query_limit req)) 50) 100.

Definition logs_offset (req : Request) : Z :=
  Z.max (number_or (parseInt_query (query_offset req)) 0) 0.

(** [router.get('/logs', ...)] *)
Definition get_logs (req : Request) : M Response :=
  try_catch
    (let limit := logs_limit req in
     let offset := logs_offset req in
     logs <- DatabaseService.getInteractionLogs limit offset ;;
     ret (ok (Some (LogsData logs))
            ("Retrieved " ++ decimal (Z.of_nat (List.length logs))
             ++ " interaction logs")))
    (fun error =>
       ret (failure 500 "Internal server error while retrieving logs")).

(** [router.get('/logs/:id', ...)] *)
Definition get_log (req : Request) : M Response :=
  try_catch
    (let id := params_id req in
     log <- DatabaseService.getInteractionLogById id ;;
     match log with
     | None => ret (failure 404 "Interaction log not found")
     | Some l =>
         ret (ok (Some (LogData l)) "Interaction log retrieved successfully")
     end)
    (fun error =>
       ret (failure 500 "Internal server error while retrieving log")).

(** [router.get('/stats', ...)] *)
Definition get_stats (req : Request) : M Response :=
  try_catch
    (stats <- DatabaseService.getStats ;;
     ret (ok (Some (StatsData stats)) "Statistics retrieved successfully"))
    (fun error =>
       ret (failure 500
              "Internal server error while retrieving statistics")).

(** [router.delete('/logs/:id', ...)] *)
Definition delete_log (req : Request) : M Response :=
  try_catch
    (let id := params_id req in
     if negb (truthy (Str id))
     then ret (failure 400 "Valid ID is required")
     else
       deleted <- DatabaseService.deleteInteractionLog id ;;
       if negb deleted
       then ret (failure 404 "Interaction log not found")
       else ret (ok None "Interaction log deleted successfully"))
    (fun error =>
       ret (failure 500 "Internal server error while deleting log")).

(** [router.delete('/logs', ...)] *)
Definition delete_logs (req : Request) : M Response :=
  try_catch
    (deletedCount <- DatabaseService.deleteAllInteractionLogs ;;
     ret (ok (Some (DeletedCount deletedCount))
            ("Successfully deleted " ++ decimal deletedCount
             ++ " interaction logs")))
    (fun error =>
       ret (failure 500 "Internal server error while deleting logs")).

End TaskRoutes.

(** ** [routes/healthRoutes.ts]: the handler of [/api/health] *)

Module HealthRoutes.
Import JS Engine.
Local Open Scope store_scope.

(** [HealthCheck] of [types/index.ts]. *)
Record HealthCheck : Type := mkHealthCheck
  { status : string;
    timestamp : string;
    uptime : Z;
    version : string;
    database : string }.

(** What was sent: the status code and the properties of the body. *)
Record Response : Type := mkResponse
  { statusCode : Z;
    success : bool;
    data : HealthCheck;
    error : option string;
    message : option string }.

(** What the handler reads of the process: [new Date().toISOString()],
    [process.uptime()] (seconds, with a fraction) and
    [process.env.npm_package_version]. *)
Record Process : Type := mkProcess
  { toISOString : string;
    process_uptime : Q;
    npm_package_version : option string }.

(** [process.env.npm_package_version || '1.0.0'] *)
Definition version_or_default (p : Process) : string :=
  match npm_package_version p with
  | Some v => if truthy_str (Some v) then v else "1.0.0"
  | None => "1.0.0"
  end.

(** [typeof stats.totalInteractions !== 'number']: the property is a
    number in every result of [getStats]. *)
Definition not_a_number (n : Z) : bool := false.

(** The inner [try]: the connectivity test. *)
Definition databaseStatus : M string :=
  try_catch
    (stats <- DatabaseService.getStats ;;
     if not_a_number (DatabaseService.totalInteractions stats)
     then throw (Error "Invalid database response")
     else ret "connected")
    (fun error => ret "disconnected").

(** [router.get('/', ...)] *)
Definition get_health (p : Process) : M Response :=
  try_catch
    (databaseStatus <- databaseStatus ;;
     let healthCheck :=
       mkHealthCheck
         (if String.eqb databaseStatus "connected"
          then "healthy" else "unhealthy")
         (toISOString p)
         (Qfloor (process_uptime p))
         (version_or_default p)
         databaseStatus in
     let healthy := String.eqb (status healthCheck) "healthy" in
     let statusCode := if healthy then 200 else 503 in
     ret (mkResponse statusCode healthy healthCheck None
            (Some (if healthy then "Service is healthy"
                   else "Service is unhealthy"))))
    (fun error =>
       ret (mkResponse 503 false
              (mkHealthCheck "unhealthy" (toISOString p)
                 (Qfloor (process_uptime p)) (version_or_default p)
                 "disconnected")
              (Some "Health check failed") None)).

End HealthRoutes.

(** ** [cli/index.ts]: class [AICLInterface] *)

Module CLI.
Import JS Engine.
Local Open Scope store_scope.

(** What follows a line of input: [this.promptUser()] again, or
    [process.exit(0)]. *)
Inductive next : Type := Prompt | Exit.

(** [input.substring(n)], the index counted in bytes. *)
Fixpoint substring (n : nat) (input : string) : string :=
  match n, input with
  | O, _ => input
  | S m, String _ rest => substring m rest
  | S _, EmptyString => EmptyString
  end.

Definition processTask (OPENAI_API_KEY : option string)
    (w : AIService.World) (taskInput : string) : M unit :=
  try_catch
    (let taskRequest := TaskRequest.mk taskInput None (Some medium) in
     response <-
       TaskRoutes.await
         (if truthy_str OPENAI_API_KEY
          then AIService.processTask w taskRequest
          else AIService.simulateTaskProcessing w taskRequest) ;;
     DatabaseService.saveInteractionLog
       (InteractionLog.mk
          (TaskResponse.id response)
          (TaskResponse.task response)
          (TaskResponse.response response)
          (TaskResponse.status response)
          (TaskResponse.timestamp response)
          (TaskResponse.processingTime response)
          None
          None
          (TaskResponse.metadata response)))
    (fun error => ret tt).

Definition showLogs : M unit :=
  try_catch
    (logs <- DatabaseService.getInteractionLogs 10 0 ;;
     ret tt)
    (fun error => ret tt).

Definition showStats : M unit :=
  try_catch
    (stats <- DatabaseService.getStats ;;
     ret tt)
    (fun error => ret tt).

Definition deleteLog (id : string) : M unit :=
  if negb (truthy (Str id)) || (String.length (trim id) =? 0)%nat
  then ret tt
  else
    try_catch
      (deleted <- DatabaseService.deleteInteractionLog (trim id) ;;
       ret tt)
      (fun error => ret tt).

Definition clearAllLogs : M unit :=
  try_catch
    (deletedCount <- DatabaseService.deleteAllInteractionLogs ;;
     ret tt)
    (fun error => ret tt).

(** The callback of [promptUser], for one line of input. *)
Definition promptUser (OPENAI_API_KEY : option string)
    (w : AIService.World) (input : string) : M next :=
  let command := toLowerCase (trim input) in
  if String.eqb command "exit" || String.eqb command "quit" then ret Exit
  else if String.eqb command "help" then ret Prompt
  else if String.eqb command "logs" then
    _ <- showLogs ;; ret Prompt
  else if String.eqb command "stats" then
    _ <- showStats ;; ret Prompt
  else if String.eqb command "clear" then ret Prompt
  else if String.eqb command "clear-all" then
    _ <- clearAllLogs ;; ret Prompt
  else if String.eqb command EmptyString then ret Prompt
  else if String.prefix "delete " command then
    let id := trim (substring 7 input) in
    _ <- deleteLog id ;; ret Prompt
  else
    _ <- processTask OPENAI_API_KEY w input ;; ret Prompt.

End CLI.

(** ** Vocabulary of the specification *)

Module Store.
Import JS Engine.

(** The operations of the store, under the names the specification gives
    them. *)
Inductive operation : Type :=
| Save (log : InteractionLog.t)
| ListPage (limit offset : Z)
| GetById (id : string)
| Stats
| DeleteById (id : string)
| DeleteAll.

(** The connection once the operation has returned or thrown. *)
Definition state_after (op : operation) (db : Db) : Db :=
  match op with
  | Save log => snd (DatabaseService.saveInteractionLog log db)
  | ListPage limit offset =>
      snd (DatabaseService.getInteractionLogs limit offset db)
  | GetById i => snd (DatabaseService.getInteractionLogById i db)
  | Stats => snd (DatabaseService.getStats db)
  | DeleteById i => snd (DatabaseService.deleteInteractionLog i db)
  | DeleteAll => snd (DatabaseService.deleteAllInteractionLogs db)
  end.

Definition valid_status (r : Row) : Prop :=
  status r = "success" \/ status r = "error".

(** [id] is unique across all rows and every [status] is one of the two
    values. *)
Definition invariant (db : Db) : Prop :=
  NoDup (map id (interaction_logs db))
  /\ Forall valid_status (interaction_logs db).

(** Newest first, rows of equal timestamp in any order. *)
Definition newer_or_equal (a b : string) : Prop := String.leb b a = true.

Definition descending (timestamps : list string) : Prop :=
  StronglySorted newer_or_equal timestamps.

(** Newest first, no two timestamps equal. *)
Definition newer (a b : string) : Prop := String.ltb b a = true.

Definition strictly_descending (timestamps : list string) : Prop :=
  StronglySorted newer timestamps.

(** Row [a] is at least as recent as row [b]. *)
Definition not_older (a b : Row) : Prop :=
  newer_or_equal (timestamp a) (timestamp b).

(** The result of [stats] on an empty table. *)
Definition zero_stats : DatabaseService.Stats :=
  DatabaseService.mkStats 0 0%Q 0%Q.

(** A count as a rational. *)
Definition Qnat (n : nat) : Q := inject_Z (Z.of_nat n).

(** The tolerance of double arithmetic the specification grants: 2^-51,
    relative to the exact value, which two rounded operations (each of
    relative error at most 2^-53) stay within. *)
Definition tolerance : Q := 1 # (2 ^ 51).

Definition within_tolerance (x exact : Q) : Prop :=
  (Qabs (x - exact) <= tolerance * Qabs exact)%Q.

(** The number of rows whose status is [success]. *)
Definition success_count (rows : list Row) : nat :=
  List.length (filter (fun r => String.eqb (status r) "success") rows).

(** The sum of the processing times. *)
Definition total_time (rows : list Row) : Z :=
  fold_right (fun r acc => processing_time r + acc) 0 rows.

(** The characters [trim] removes, in UTF-8. *)
Definition StrWhiteSpaceChar : list string :=
  map (fun bytes => string_of_list_ascii (map ascii_of_nat bytes))
    [ [9%nat]; [10%nat]; [11%nat]; [12%nat]; [13%nat]; [32%nat];
      [194; 160]%nat; [225; 154; 128]%nat;
      [226; 128; 128]%nat; [226; 128; 129]%nat; [226; 128; 130]%nat;
      [226; 128; 131]%nat; [226; 128; 132]%nat; [226; 128; 133]%nat;
      [226; 128; 134]%nat; [226; 128; 135]%nat; [226; 128; 136]%nat;
      [226; 128; 137]%nat; [226; 128; 138]%nat;
      [226; 128; 168]%nat; [226; 128; 169]%nat; [226; 128; 175]%nat;
      [226; 129; 159]%nat; [227; 128; 128]%nat; [239; 187; 191]%nat ].

(** A string made of white space only. *)
Inductive WhiteSpaceOnly : string -> Prop :=
| ws_empty : WhiteSpaceOnly EmptyString
| ws_more (c s : string) :
    In c StrWhiteSpaceChar -> WhiteSpaceOnly s -> WhiteSpaceOnly (c ++ s).

(** What validation rejects: the [task] property is missing, is not a
    string, or is a string that is empty once trimmed. *)
Definition rejected_task (task : value) : Prop :=
  task = Undefined
  \/ isString task = false
  \/ exists s, task = Str s /\ String.length (trim s) = 0%nat.

End Store.

(** ** Vocabulary of the further properties *)

Module Flow.
Import JS Engine.

(** The request [POST /tasks/process] hands to the strategy, for a task
    text [s]. *)
Definition taskRequest (s : string) (req : TaskRoutes.Request)
  : TaskRequest.t :=
  TaskRequest.mk (trim s) (TaskRoutes.body_context req)
    (TaskRoutes.body_priority req).

(** The strategy [process.env.OPENAI_API_KEY] selects. *)
Definition strategy (OPENAI_API_KEY : option string) (w : AIService.World)
    (request : TaskRequest.t) : outcome TaskResponse.t :=
  if truthy_str OPENAI_API_KEY
  then AIService.processTask w request
  else AIService.simulateTaskProcessing w request.

(** The log [POST /tasks/process] builds from the result of the strategy
    and the request. *)
Definition interactionLog (r : TaskResponse.t) (req : TaskRoutes.Request)
  : InteractionLog.t :=
  InteractionLog.mk (TaskResponse.id r) (TaskResponse.task r)
    (TaskResponse.response r) (TaskResponse.status r)
    (TaskResponse.timestamp r) (TaskResponse.processingTime r)
    (TaskRoutes.user_agent req) (TaskRoutes.ip req)
    (TaskResponse.metadata r).

End Flow.

(** ** Concrete connections and requests used below *)

Module Examples.
Import JS Engine.

Definition io_error : exn := SqliteError "SQLITE_IOERR" "disk I/O error".

Definition row (i status timestamp : string) (ms : Z) : Row :=
  mkRow i "analyze leads" "Lead Analysis Report:" status timestamp ms
    None None None.

Definition row_a : Row := row "a" "success" "2024-05-01T10:00:00.000Z" 600.
Definition row_b : Row := row "b" "error" "2024-05-01T10:00:05.000Z" 900.
(** Written in the same millisecond as [row_a]. *)
Definition row_c : Row := row "c" "success" "2024-05-01T10:00:00.000Z" 1200.

Definition healthy : Db := mkDb [row_a; row_b; row_c] None.
Definition faulty : Db := mkDb [row_a; row_b; row_c] (Some io_error).

(** The bag [simulateTaskProcessing] builds for a request without
    context. *)
Definition bag : value :=
  Object
    [("priority", Str "medium");
     ("context", Undefined);
     ("simulated", Bool true)].

(** A bag that holds a number that is not finite. *)
Definition nan_bag : value := Object [("ratio", Number NaN)].

(** The same bag for a request with a context. *)
Definition full_bag : value :=
  Object
    [("priority", Str "high");
     ("context", Str "Q4 sales data");
     ("simulated", Bool true)].

Definition log (i status : string) (metadata : value) : InteractionLog.t :=
  InteractionLog.mk i "xyz123" "Task completed successfully" status
    "2024-05-01T10:00:07.000Z" 750 (Some "curl/8.0") (Some "127.0.0.1")
    metadata.

(** A backend that rejects every call with a text, not an [Error]. *)
Definition throttled : AIService.World :=
  AIService.mkWorld "0b0f6c1e-0000-4000-8000-000000000003" 1000 1250
    "2024-05-01T10:00:08.000Z" "5/1/2024, 10:00:08 AM"
    (fun _ => Threw (Thrown (Str "429 Rate limit reached"))).

(** A backend that rejects every call. *)
Definition offline : AIService.World :=
  AIService.mkWorld "0b0f6c1e-0000-4000-8000-000000000001" 1000 1600
    "2024-05-01T10:00:07.000Z" "5/1/2024, 10:00:07 AM"
    (fun _ => Threw (Error "401 Incorrect API key provided")).

Definition request (task : value) (limit : option string)
  : TaskRoutes.Request :=
  TaskRoutes.mkRequest task None None limit None "a" (Some "curl/8.0")
    (Some "127.0.0.1").

End Examples.

(** * Properties *)

Import JS Engine.

(** ** The engine *)

Section EngineFacts.
Context {A : Type} (run : list Row -> outcome A * list Row).

Lemma prepare_fault (rows : list Row) (e : exn) :
  prepare run (mkDb rows (Some e)) = (Threw e, mkDb rows (Some e)).
Proof. reflexivity. Qed.

Lemma prepare_healthy (rows : list Row) :
  prepare run (mkDb rows None)
  = (fst (run rows), mkDb (snd (run rows)) None).
Proof. unfold prepare; simpl. destruct (run rows); reflexivity. Qed.
End EngineFacts.

(** Runs the statement of a store method on a connection whose storage is
    sound. *)
Ltac run_statement :=
  unfold DatabaseService.saveInteractionLog,
    DatabaseService.getInteractionLogById, DatabaseService.getStats,
    try_catch, bind, insert, select_by_id, select_stats;
  rewrite prepare_healthy.

(** ** Failure semantics of the store *)

Lemma getStats_returns (db : Db) :
  exists s, DatabaseService.getStats db = (Returned s, db).
Proof.
  destruct db as [rows [e|]].
  - exists Store.zero_stats. reflexivity.
  - eexists. run_statement. simpl. reflexivity.
Qed.

(** C1 as stated fails: with the storage failing, [list] and [getById]
    throw the engine's error at their caller. *)
Lemma read_fault_reaches_caller :
  fst (DatabaseService.getInteractionLogs 50 0 Examples.faulty)
  = Threw Examples.io_error
  /\ fst (DatabaseService.getInteractionLogById "a" Examples.faulty)
     = Threw Examples.io_error.
Proof. split; reflexivity. Qed.

(** C1, amended: of the three read operations only [stats] catches a
    storage fault: it always returns, and returns the zero-valued result
    when the storage fails.  [list] and [getById] have no handler of their
    own: the fault leaves them as it was raised, and it is their callers,
    the route handlers, that answer it with status 500. *)
Theorem read_fault_semantics :
  (forall db, exists s, DatabaseService.getStats db = (Returned s, db))
  /\ (forall rows e,
        DatabaseService.getStats (mkDb rows (Some e))
        = (Returned Store.zero_stats, mkDb rows (Some e)))
  /\ (forall rows e limit offset,
        DatabaseService.getInteractionLogs limit offset (mkDb rows (Some e))
        = (Threw e, mkDb rows (Some e)))
  /\ (forall rows e i,
        DatabaseService.getInteractionLogById i (mkDb rows (Some e))
        = (Threw e, mkDb rows (Some e)))
  /\ (forall rows e req,
        TaskRoutes.get_logs req (mkDb rows (Some e))
        = (Returned
             (TaskRoutes.failure 500
                "Internal server error while retrieving logs"),
           mkDb rows (Some e)))
  /\ (forall rows e req,
        TaskRoutes.get_log req (mkDb rows (Some e))
        = (Returned
             (TaskRoutes.failure 500
                "Internal server error while retrieving log"),
           mkDb rows (Some e))).
Proof.
  split; [exact getStats_returns|].
  repeat split; reflexivity.
Qed.

(** C2 as stated fails: with the storage failing, [deleteById] returns
    [false], the result it gives for an id that is not there, and
    [deleteAll] returns 0; nothing is thrown and the rows stay. *)
Lemma delete_fault_is_swallowed :
  DatabaseService.deleteInteractionLog "a" Examples.faulty
  = (Returned false, Examples.faulty)
  /\ fst (DatabaseService.deleteInteractionLog "zz" Examples.healthy)
     = Returned false
  /\ DatabaseService.deleteAllInteractionLogs Examples.faulty
     = (Returned 0, Examples.faulty).
Proof. repeat split; reflexivity. Qed.

(** C2, amended: of the write operations only [save] throws a storage
    fault at its caller.  [deleteById] and [deleteAll] catch the fault
    themselves: [deleteById] returns [false], so that the handler answers
    404 as it does for an absent id, [deleteAll] returns 0, which the
    handler reports as a successful deletion of 0 rows; the rows are
    kept. *)
Theorem write_fault_semantics :
  (forall rows e log,
     DatabaseService.saveInteractionLog log (mkDb rows (Some e))
     = (Threw e, mkDb rows (Some e)))
  /\ (forall rows e i,
        DatabaseService.deleteInteractionLog i (mkDb rows (Some e))
        = (Returned false, mkDb rows (Some e)))
  /\ (forall rows e,
        DatabaseService.deleteAllInteractionLogs (mkDb rows (Some e))
        = (Returned 0, mkDb rows (Some e)))
  /\ (forall rows e req,
        TaskRoutes.params_id req <> EmptyString ->
        TaskRoutes.delete_log req (mkDb rows (Some e))
        = (Returned (TaskRoutes.failure 404 "Interaction log not found"),
           mkDb rows (Some e)))
  /\ (forall rows e req,
        TaskRoutes.delete_logs req (mkDb rows (Some e))
        = (Returned
             (TaskRoutes.ok (Some (TaskRoutes.DeletedCount 0))
                "Successfully deleted 0 interaction logs"),
           mkDb rows (Some e))).
Proof.
  repeat split; try reflexivity.
  intros rows e req Hid. unfold TaskRoutes.delete_log, try_catch.
  destruct (TaskRoutes.params_id req); [contradiction|reflexivity].
Qed.

Lemma write_fault_semantics_witness :
  TaskRoutes.delete_log (Examples.request Undefined None) Examples.faulty
  = (Returned (TaskRoutes.failure 404 "Interaction log not found"),
     Examples.faulty).
Proof.
  apply (proj1 (proj2 (proj2 (proj2 write_fault_semantics)))).
  discriminate.
Defined.

(** ** Statistics *)

Lemma SUM_case_success (rows : list Row) :
  SUM (map case_success rows) = Z.of_nat (Store.success_count rows).
Proof.
  unfold Store.success_count.
  induction rows as [|r rows IH]; simpl; [reflexivity|].
  unfold case_success at 1.
  destruct (String.eqb (status r) "success"); simpl length; lia.
Qed.

Lemma SUM_processing_time (rows : list Row) :
  SUM (map processing_time rows) = Store.total_time rows.
Proof.
  induction rows as [|r rows IH]; simpl; [reflexivity|].
  now rewrite IH.
Qed.

Lemma or_zero_some (q : Q) : (DatabaseService.or_zero (Some q) == q)%Q.
Proof.
  unfold DatabaseService.or_zero.
  destruct (Qeq_bool q 0) eqn:E; [|reflexivity].
  apply Qeq_bool_eq in E. now rewrite E.
Qed.



(** ** Paging *)

Lemma string_leb_trans (a b c : string) :
  String.leb a b = true -> String.leb b c = true -> String.leb a c = true.
Proof.
  unfold String.leb. revert b c.
  induction a as [|x xs IH]; intros [|y ys] [|z zs]; simpl; try congruence.
  specialize (IH ys zs). unfold Ascii.compare.
  destruct (N.compare_spec (N_of_ascii x) (N_of_ascii y)) as [Exy|Lxy|Gxy];
    destruct (N.compare_spec (N_of_ascii y) (N_of_ascii z)) as [Eyz|Lyz|Gyz];
    try congruence.
  - rewrite Exy, Eyz, N.compare_refl. exact IH.
  - intros _ _. rewrite Exy. apply N.compare_lt_iff in Lyz. now rewrite Lyz.
  - intros _ _. rewrite <- Eyz. apply N.compare_lt_iff in Lxy. now rewrite Lxy.
  - intros _ _. assert (H : (N_of_ascii x < N_of_ascii z)%N) by lia.
    apply N.compare_lt_iff in H. now rewrite H.
Qed.

Lemma not_older_trans (a b c : Row) :
  Store.not_older a b -> Store.not_older b c -> Store.not_older a c.
Proof.
  unfold Store.not_older, Store.newer_or_equal. intros Hab Hbc.
  exact (string_leb_trans _ _ _ Hbc Hab).
Qed.

Lemma insert_desc_perm (r : Row) (l : list Row) :
  Permutation (insert_desc r l) (r :: l).
Proof.
  induction l as [|x l IH]; simpl; [reflexivity|].
  destruct (String.ltb (timestamp x) (timestamp r)); [reflexivity|].
  rewrite IH. apply perm_swap.
Qed.

Lemma order_by_timestamp_desc_perm (rows : list Row) :
  Permutation (order_by_timestamp_desc rows) rows.
Proof.
  induction rows as [|r rows IH]; simpl; [reflexivity|].
  rewrite insert_desc_perm. now constructor.
Qed.

Lemma string_ltb_leb (a b : string) :
  String.ltb a b = true -> String.leb a b = true.
Proof.
  unfold String.ltb, String.leb.
  destruct (String.compare a b); intros H; try reflexivity; discriminate.
Qed.

Lemma string_not_ltb_leb (a b : string) :
  String.ltb a b = false -> String.leb b a = true.
Proof.
  unfold String.ltb, String.leb. rewrite (String.compare_antisym b a).
  destruct (String.compare a b); simpl; intros H; try reflexivity;
    discriminate.
Qed.

Lemma insert_desc_sorted (r : Row) (l : list Row) :
  StronglySorted Store.not_older l -> StronglySorted Store.not_older (insert_desc r l).
Proof.
  induction 1 as [|x l Hs IH Hx]; simpl.
  - repeat constructor.
  - destruct (String.ltb (timestamp x) (timestamp r)) eqn:E.
    + apply string_ltb_leb in E.
      constructor; [now constructor|].
      constructor; [exact E|].
      eapply Forall_impl; [|exact Hx].
      intros y Hy. exact (not_older_trans r x y E Hy).
    + apply string_not_ltb_leb in E.
      constructor; [exact IH|].
      eapply Permutation_Forall;
        [symmetry; apply insert_desc_perm|].
      constructor; [exact E|exact Hx].
Qed.

Lemma order_by_timestamp_desc_sorted (rows : list Row) :
  StronglySorted Store.not_older (order_by_timestamp_desc rows).
Proof.
  induction rows as [|r rows IH]; simpl.
  - constructor.
  - now apply insert_desc_sorted.
Qed.

Lemma sorted_split (l1 l2 : list Row) :
  StronglySorted Store.not_older (l1 ++ l2) ->
  StronglySorted Store.not_older l1
  /\ Forall (fun r => Forall (Store.not_older r) l2) l1.
Proof.
  induction l1 as [|x l1 IH]; simpl; intros H.
  - split; constructor.
  - inversion H as [|? ? Hs Hx]; subst.
    destruct (IH Hs) as [H1 H2].
    apply Forall_app in Hx. destruct Hx as [Hx1 Hx2].
    split; constructor; assumption.
Qed.

Lemma sorted_timestamps (l : list Row) :
  StronglySorted Store.not_older l ->
  Store.descending
    (map InteractionLog.timestamp (map DatabaseService.log_of_row l)).
Proof.
  unfold Store.descending.
  induction 1 as [|x l Hs IH Hx]; simpl; constructor; [exact IH|].
  rewrite map_map. apply Forall_map. exact Hx.
Qed.

Lemma in_int64_true (n : Z) : - 2 ^ 63 < n < 2 ^ 63 -> in_int64 n = true.
Proof.
  intros [H1 H2]. unfold in_int64.
  apply andb_true_iff. split; now apply Z.ltb_lt.
Qed.

Lemma in_int64_false (n : Z) :
  n <= - 2 ^ 63 \/ 2 ^ 63 <= n -> in_int64 n = false.
Proof.
  intros H. unfold in_int64. apply andb_false_iff.
  destruct H as [H|H]; [left|right]; now apply Z.ltb_ge.
Qed.

Lemma getInteractionLogs_healthy (rows : list Row) (limit offset : Z) :
  - 2 ^ 63 < limit < 2 ^ 63 -> - 2 ^ 63 < offset < 2 ^ 63 ->
  DatabaseService.getInteractionLogs limit offset (mkDb rows None)
  = (Returned
       (map DatabaseService.log_of_row
          (limit_offset limit offset (order_by_timestamp_desc rows))),
     mkDb rows None).
Proof.
  intros Hl Ho.
  unfold DatabaseService.getInteractionLogs, bind, select_page.
  rewrite prepare_healthy.
  now rewrite (in_int64_true limit Hl), (in_int64_true offset Ho).
Qed.

Lemma getInteractionLogs_mismatch (rows : list Row) (limit offset : Z) :
  limit <= - 2 ^ 63 \/ 2 ^ 63 <= limit
  \/ offset <= - 2 ^ 63 \/ 2 ^ 63 <= offset ->
  DatabaseService.getInteractionLogs limit offset (mkDb rows None)
  = (Threw (SqliteError "SQLITE_MISMATCH" "datatype mismatch"),
     mkDb rows None).
Proof.
  intros H.
  unfold DatabaseService.getInteractionLogs, bind, select_page.
  rewrite prepare_healthy.
  replace (in_int64 limit && in_int64 offset) with false; [reflexivity|].
  symmetry. apply andb_false_iff.
  destruct H as [H|[H|[H|H]]];
    [left|left|right|right]; apply in_int64_false; auto.
Qed.

(** C4 as stated fails: [row_a] and [row_c] carry the same timestamp, and
    the page that holds both is not in strictly descending order; a page
    of 5 asked of a table of 3 rows has 3 rows; and a page of 10^20 is
    refused: [list] throws. *)
Lemma list_not_strictly_descending :
  (exists logs,
     DatabaseService.getInteractionLogs 3 0 Examples.healthy
     = (Returned logs, Examples.healthy)
     /\ List.length logs = 3%nat
     /\ ~ Store.strictly_descending (map InteractionLog.timestamp logs))
  /\ (exists logs,
        DatabaseService.getInteractionLogs 5 0 Examples.healthy
        = (Returned logs, Examples.healthy)
        /\ List.length logs = 3%nat)
  /\ fst (DatabaseService.getInteractionLogs (10 ^ 20) 0 Examples.healthy)
     = Threw (SqliteError "SQLITE_MISMATCH" "datatype mismatch").
Proof.
  split; [|split; [|reflexivity]];
    eexists; (split; [reflexivity|]); [|reflexivity].
  split; [reflexivity|].
  simpl. intros H.
  inversion H as [|? ? H1 _]; subst.
  inversion H1 as [|? ? _ H2]; subst.
  inversion H2 as [|? ? H3 _]; subst.
  unfold Store.newer in H3. vm_compute in H3. discriminate.
Qed.

(** C4, amended: on a table of N rows read through a connection whose
    storage serves the query, [list(limit=k, offset=0)] with
    [0 <= k < 2^63] returns min(k, N) rows in descending timestamp order,
    rows of equal timestamp in either order, and no row it leaves out is
    newer than a row it returns; with [offset = N] it returns the empty
    sequence, and on an empty table it returns the empty sequence and does
    not throw, for every limit and offset strictly between -2^63 and 2^63.
    A limit or an offset outside that range makes [list] throw (datatype
    mismatch), whatever the table. *)
Theorem list_newest_first :
  (forall (rows : list Row) (k : nat),
     Z.of_nat k < 2 ^ 63 ->
     exists page rest,
       DatabaseService.getInteractionLogs (Z.of_nat k) 0 (mkDb rows None)
       = (Returned (map DatabaseService.log_of_row page), mkDb rows None)
       /\ Permutation (page ++ rest) rows
       /\ List.length page = Nat.min k (List.length rows)
       /\ Store.descending
            (map InteractionLog.timestamp
               (map DatabaseService.log_of_row page))
       /\ Forall (fun r => Forall (Store.not_older r) rest) page)
  /\ (forall (rows : list Row) (limit : Z),
        - 2 ^ 63 < limit < 2 ^ 63 ->
        Z.of_nat (List.length rows) < 2 ^ 63 ->
        DatabaseService.getInteractionLogs limit
          (Z.of_nat (List.length rows)) (mkDb rows None)
        = (Returned [], mkDb rows None))
  /\ (forall limit offset : Z,
        - 2 ^ 63 < limit < 2 ^ 63 -> - 2 ^ 63 < offset < 2 ^ 63 ->
        DatabaseService.getInteractionLogs limit offset (mkDb [] None)
        = (Returned [], mkDb [] None))
  /\ (forall (rows : list Row) (limit offset : Z),
        limit <= - 2 ^ 63 \/ 2 ^ 63 <= limit
        \/ offset <= - 2 ^ 63 \/ 2 ^ 63 <= offset ->
        DatabaseService.getInteractionLogs limit offset (mkDb rows None)
        = (Threw (SqliteError "SQLITE_MISMATCH" "datatype mismatch"),
           mkDb rows None)).
Proof.
  split; [|split; [|split]].
  - intros rows k Hk.
    set (sorted := order_by_timestamp_desc rows).
    exists (firstn k sorted), (skipn k sorted).
    pose proof (order_by_timestamp_desc_sorted rows) as Hs. fold sorted in Hs.
    rewrite <- (firstn_skipn k sorted) in Hs.
    destruct (sorted_split _ _ Hs) as [H1 H2].
    split; [|split; [|split; [|split]]].
    + rewrite getInteractionLogs_healthy by lia. unfold limit_offset.
      fold sorted. simpl skipn.
      destruct (Z.ltb_spec (Z.of_nat k) 0); [lia|].
      now rewrite Nat2Z.id.
    + rewrite firstn_skipn. apply order_by_timestamp_desc_perm.
    + rewrite length_firstn. unfold sorted.
      now rewrite (Permutation_length (order_by_timestamp_desc_perm rows)).
    + now apply sorted_timestamps.
    + exact H2.
  - intros rows limit Hl HN. rewrite getInteractionLogs_healthy by lia.
    unfold limit_offset. rewrite Nat2Z.id.
    rewrite skipn_all2
      by (rewrite (Permutation_length (order_by_timestamp_desc_perm rows));
          lia).
    destruct (limit <? 0); [reflexivity|]. now rewrite firstn_nil.
  - intros limit offset Hl Ho.
    rewrite getInteractionLogs_healthy by assumption.
    unfold limit_offset. simpl. rewrite skipn_nil.
    destruct (limit <? 0); [reflexivity|]. now rewrite firstn_nil.
  - exact getInteractionLogs_mismatch.
Qed.

Lemma list_newest_first_witness :
  exists page rest,
    DatabaseService.getInteractionLogs 2 0 Examples.healthy
    = (Returned (map DatabaseService.log_of_row page), Examples.healthy)
    /\ Permutation (page ++ rest) (interaction_logs Examples.healthy)
    /\ List.length page = 2%nat.
Proof.
  destruct (proj1 list_newest_first (interaction_logs Examples.healthy)
              2%nat) as [page [rest [H1 [H2 [H3 _]]]]].
  - reflexivity.
  - exists page, rest. split; [exact H1|]. split; [exact H2|exact H3].
Defined.

(** ** The invariant of the table *)

Lemma has_id_In (i : string) (rows : list Row) :
  has_id i rows = true <-> In i (map id rows).
Proof.
  unfold has_id. rewrite existsb_exists, in_map_iff.
  split; intros [r [H1 H2]]; exists r.
  - apply String.eqb_eq in H2. now split.
  - split; [exact H2|]. now apply String.eqb_eq.
Qed.

Lemma check_status_valid (s : string) :
  check_status s = true <-> s = "success" \/ s = "error".
Proof.
  unfold check_status. rewrite orb_true_iff, !String.eqb_eq. reflexivity.
Qed.

Lemma unique_ids_filter (keep : Row -> bool) (rows : list Row) :
  NoDup (map id rows) -> NoDup (map id (filter keep rows)).
Proof.
  induction rows as [|r rows IH]; simpl; intros H; [constructor|].
  apply NoDup_cons_iff in H. destruct H as [Hr Hrows].
  destruct (keep r); simpl; [|now apply IH].
  constructor; [|now apply IH].
  rewrite in_map_iff. intros [y [Hy Hin]].
  apply filter_In in Hin. apply Hr.
  rewrite in_map_iff. exists y. tauto.
Qed.

Lemma save_preserves (log : InteractionLog.t) (db : Db) :
  Store.invariant db ->
  Store.invariant (snd (DatabaseService.saveInteractionLog log db)).
Proof.
  intros [Hid Hst]. destruct db as [rows [e|]]; [split; assumption|].
  run_statement.
  set (r := DatabaseService.row_of_log log).
  destruct (check_status (status r)) eqn:C; simpl negb; cbv iota;
    [|split; assumption].
  destruct (has_id (id r) rows) eqn:H; [split; assumption|].
  unfold Store.invariant in *. cbn [snd fst interaction_logs] in *. split.
  - rewrite map_app. simpl.
    apply NoDup_app; [exact Hid|repeat constructor; intros []|].
    intros x Hx [Hr|[]]. subst x.
    apply has_id_In in Hx. change (InteractionLog.id log) with (id r) in Hx.
    congruence.
  - apply Forall_app. split; [exact Hst|].
    constructor; [|constructor]. now apply check_status_valid.
Qed.

Lemma delete_preserves (i : string) (db : Db) :
  Store.invariant db ->
  Store.invariant (snd (DatabaseService.deleteInteractionLog i db)).
Proof.
  intros [Hid Hst]. destruct db as [rows [e|]]; [split; assumption|].
  simpl in *. split.
  - now apply unique_ids_filter.
  - apply Forall_forall. intros r Hr. apply filter_In in Hr.
    rewrite Forall_forall in Hst. now apply Hst.
Qed.

Lemma save_rejected (log : InteractionLog.t) (db : Db) :
  In (InteractionLog.id log) (map id (interaction_logs db))
  \/ (InteractionLog.status log <> "success"
      /\ InteractionLog.status log <> "error") ->
  exists e, DatabaseService.saveInteractionLog log db = (Threw e, db).
Proof.
  intros H. destruct db as [rows [e|]]; [now exists e|].
  run_statement.
  change (status (DatabaseService.row_of_log log))
    with (InteractionLog.status log).
  change (id (DatabaseService.row_of_log log)) with (InteractionLog.id log).
  destruct (check_status (InteractionLog.status log)) eqn:C; simpl negb;
    cbv iota.
  - destruct H as [H|[H1 H2]].
    + apply has_id_In in H. simpl in H. rewrite H. eexists; reflexivity.
    + apply check_status_valid in C. tauto.
  - eexists; reflexivity.
Qed.

Lemma getInteractionLogs_state (limit offset : Z) (db : Db) :
  snd (DatabaseService.getInteractionLogs limit offset db) = db.
Proof.
  destruct db as [rows [e|]]; [reflexivity|].
  unfold DatabaseService.getInteractionLogs, bind, select_page.
  rewrite prepare_healthy.
  now destruct (in_int64 limit && in_int64 offset).
Qed.

(** C5: every operation of the store keeps the ids unique and every status
    one of [success] and [error]; [save] throws, and leaves the table as it
    was, when the id of the log is the id of a row or its status is neither
    of the two values. *)
Theorem store_invariant :
  (forall op db,
     Store.invariant db -> Store.invariant (Store.state_after op db))
  /\ (forall log db,
        In (InteractionLog.id log) (map id (interaction_logs db))
        \/ (InteractionLog.status log <> "success"
            /\ InteractionLog.status log <> "error") ->
        exists e, DatabaseService.saveInteractionLog log db = (Threw e, db)).
Proof.
  split; [|exact save_rejected].
  intros op db Inv. destruct op; simpl.
  - now apply save_preserves.
  - now rewrite getInteractionLogs_state.
  - destruct db as [rows [e|]]; [exact Inv|].
    run_statement. simpl.
    destruct (find _ rows); exact Inv.
  - destruct (getStats_returns db) as [s Hs]. now rewrite Hs.
  - now apply delete_preserves.
  - destruct db as [rows [e|]]; [exact Inv|].
    split; simpl; constructor.
Qed.

Lemma store_invariant_witness :
  Store.invariant Examples.healthy
  /\ Store.invariant
       (Store.state_after (Store.Save (Examples.log "d" "error" Null))
          Examples.healthy)
  /\ exists e,
       DatabaseService.saveInteractionLog (Examples.log "a" "success" Null)
         Examples.healthy
       = (Threw e, Examples.healthy).
Proof.
  assert (Inv : Store.invariant Examples.healthy).
  { split; simpl.
    - repeat constructor; simpl; intuition discriminate.
    - constructor; [left; reflexivity|].
      constructor; [right; reflexivity|].
      constructor; [left; reflexivity|constructor]. }
  split; [exact Inv|]. split.
  - exact (proj1 store_invariant _ _ Inv).
  - apply (proj2 store_invariant). left. simpl. auto.
Defined.

(** ** The task processor *)


(** C6 as stated fails: when what the backend rejects with is not an
    [Error], the failure message is lost: [metadata.error] and the response
    say [Unknown error]. *)
Lemma failure_message_is_lost :
  exists r,
    AIService.processTask Examples.throttled
      (TaskRequest.mk "analyze leads" None None) = Returned r
    /\ TaskResponse.status r = "error"
    /\ prop "error" (TaskResponse.metadata r) = Some (Str "Unknown error")
    /\ prop "error" (TaskResponse.metadata r)
       <> Some (Str "429 Rate limit reached")
    /\ includes (TaskResponse.response r) "429 Rate limit reached" = false.
Proof.
  eexists. split; [reflexivity|]. split; [reflexivity|].
  split; [reflexivity|]. split; [discriminate|reflexivity].
Qed.

(** C6, amended: [processTask] returns a result for every request,
    whatever the backend does, and never throws; when the generation call
    fails the result has status [error]; when the failure is an [Error] of
    message [m], the response is the text [Error processing task: ]
    followed by [m] and [metadata.error] is [m]; when what was thrown is
    not an [Error], the response is [Error processing task: Unknown error]
    and [metadata.error] is [Unknown error]. *)
Theorem processTask_never_throws (w : AIService.World)
    (request : TaskRequest.t) :
  exists r,
    AIService.processTask w request = Returned r
    /\ (forall e,
          AIService.generateResponse w request = Threw e ->
          TaskResponse.status r = "error")
    /\ (forall m,
          AIService.generateResponse w request = Threw (Error m) ->
          TaskResponse.response r = "Error processing task: " ++ m
          /\ prop "error" (TaskResponse.metadata r) = Some (Str m))
    /\ (forall code m,
          AIService.generateResponse w request = Threw (SqliteError code m) ->
          TaskResponse.response r = "Error processing task: " ++ m
          /\ prop "error" (TaskResponse.metadata r) = Some (Str m))
    /\ (forall v,
          AIService.generateResponse w request = Threw (Thrown v) ->
          TaskResponse.response r = "Error processing task: Unknown error"
          /\ prop "error" (TaskResponse.metadata r)
             = Some (Str "Unknown error")).
Proof.
  unfold AIService.processTask.
  destruct (AIService.generateResponse w request) as [response|error].
  - eexists. split; [reflexivity|]. repeat split; discriminate.
  - eexists. split; [reflexivity|].
    split; [|split; [|split]].
    + intros e _. reflexivity.
    + intros m [= ->]. split; reflexivity.
    + intros code m [= ->]. split; reflexivity.
    + intros v [= ->]. split; reflexivity.
Qed.

Lemma processTask_never_throws_witness :
  exists r,
    AIService.processTask Examples.offline
      (TaskRequest.mk "analyze leads" None None) = Returned r
    /\ TaskResponse.status r = "error"
    /\ TaskResponse.response r
       = "Error processing task: 401 Incorrect API key provided"
    /\ prop "error" (TaskResponse.metadata r)
       = Some (Str "401 Incorrect API key provided").
Proof.
  destruct (processTask_never_throws Examples.offline
              (TaskRequest.mk "analyze leads" None None))
    as [r [Hr [Hs [He _]]]].
  exists r. split; [exact Hr|]. split.
  - apply (Hs (Error "401 Incorrect API key provided")). reflexivity.
  - apply (He "401 Incorrect API key provided"). reflexivity.
Defined.

(** C9: the simulation answers the task [analyze leads] with status
    [success] and a response that contains [Lead Analysis Report]; it
    answers the task [xyz123] with a response that contains [xyz123]; and
    whatever the request, the result has status [success] and
    [metadata.simulated] is [true]. *)
Theorem simulation_strategy :
  (forall w context priority,
     exists r,
       AIService.simulateTaskProcessing w
         (TaskRequest.mk "analyze leads" context priority) = Returned r
       /\ TaskResponse.status r = "success"
       /\ includes (TaskResponse.response r) "Lead Analysis Report" = true)
  /\ (forall w context priority,
        exists r,
          AIService.simulateTaskProcessing w
            (TaskRequest.mk "xyz123" context priority) = Returned r
          /\ includes (TaskResponse.response r) "xyz123" = true)
  /\ (forall w request,
        exists r,
          AIService.simulateTaskProcessing w request = Returned r
          /\ TaskResponse.status r = "success"
          /\ prop "simulated" (TaskResponse.metadata r) = Some (Bool true)).
Proof.
  split; [|split].
  - intros w context priority. eexists. split; [reflexivity|].
    split; reflexivity.
  - intros w context priority. eexists. split; [reflexivity|].
    reflexivity.
  - intros w request. eexists. split; [reflexivity|].
    split; reflexivity.
Qed.

(** ** Validation of a submission *)

Lemma trimStart_whitespace (c s : string) :
  In c Store.StrWhiteSpaceChar -> trimStart (c ++ s) = trimStart s.
Proof.
  unfold Store.StrWhiteSpaceChar. simpl.
  intros H.
  repeat (destruct H as [<-|H]; [reflexivity|]).
  destruct H.
Qed.

Lemma trim_whitespace_only (s : string) :
  Store.WhiteSpaceOnly s -> trim s = EmptyString.
Proof.
  intros H. unfold trim.
  assert (E : trimStart s = EmptyString).
  { induction H as [|c s Hc Hs IH]; [reflexivity|].
    now rewrite trimStart_whitespace. }
  now rewrite E.
Qed.

Lemma whitespace_only_is_rejected (s : string) :
  Store.WhiteSpaceOnly s -> Store.rejected_task (Str s).
Proof.
  intros H. right. right. exists s. split; [reflexivity|].
  now rewrite trim_whitespace_only.
Qed.

(** C7: a submission whose [task] is missing, is not a string, or is a
    string that is empty once trimmed (the empty string, or white space
    only) is answered with status 400, and the table is what it was: no row
    is created. *)
Theorem rejected_task_is_not_logged (OPENAI_API_KEY : option string)
    (w : AIService.World) (req : TaskRoutes.Request) (db : Db) :
  Store.rejected_task (TaskRoutes.body_task req) ->
  TaskRoutes.post_process OPENAI_API_KEY w req db
  = (Returned
       (TaskRoutes.failure 400
          "Task is required and must be a non-empty string"),
     db).
Proof.
  intros H. unfold TaskRoutes.post_process, try_catch.
  destruct (TaskRoutes.body_task req) as [| | b | n | s | elems | props];
    try reflexivity.
  destruct H as [H|[H|[s' [[= <-] H]]]]; try discriminate.
  rewrite H, orb_true_r. reflexivity.
Qed.

Lemma rejected_task_is_not_logged_witness :
  TaskRoutes.post_process None Examples.offline
    (Examples.request (Str "  ") None) Examples.healthy
  = (Returned
       (TaskRoutes.failure 400
          "Task is required and must be a non-empty string"),
     Examples.healthy).
Proof.
  apply rejected_task_is_not_logged.
  right. right. exists "  ". split; reflexivity.
Defined.

(** ** The page a caller asks for *)

(** C10: [GET /tasks/logs] passes to the store the limit
    [min(parseInt(limit), 100)] when [parseInt(limit)] is a number other
    than zero, and 50 when the parameter is absent, is not numeric or
    parses to 0; a negative limit reaches the store as it is.  Only the
    bound 100 on the limit and the bound 0 on the offset are enforced. *)
Theorem logs_limit_spec (req : TaskRoutes.Request) :
  let parsed := TaskRoutes.parseInt_query (TaskRoutes.query_limit req) in
  (forall db,
     TaskRoutes.get_logs req db
     = try_catch
         (logs <- DatabaseService.getInteractionLogs
                    (TaskRoutes.logs_limit req) (TaskRoutes.logs_offset req) ;;
          ret (TaskRoutes.ok (Some (TaskRoutes.LogsData logs))
                 ("Retrieved "
                  ++ TaskRoutes.decimal (Z.of_nat (List.length logs))
                  ++ " interaction logs")))%store
         (fun _ =>
            ret (TaskRoutes.failure 500
                   "Internal server error while retrieving logs")) db)
  /\ (forall n, parsed = Some n -> n <> 0 ->
        TaskRoutes.logs_limit req = Z.min n 100)
  /\ (TaskRoutes.query_limit req = None -> TaskRoutes.logs_limit req = 50)
  /\ (parsed = None -> TaskRoutes.logs_limit req = 50)
  /\ (parsed = Some 0 -> TaskRoutes.logs_limit req = 50)
  /\ (forall n, parsed = Some n -> n < 0 -> TaskRoutes.logs_limit req = n)
  /\ TaskRoutes.logs_limit req <= 100
  /\ 0 <= TaskRoutes.logs_offset req.
Proof.
  cbv zeta. unfold TaskRoutes.logs_limit, TaskRoutes.logs_offset.
  split; [reflexivity|].
  split; [|split; [|split; [|split; [|split; [|split]]]]].
  - intros n -> Hn. simpl. destruct (Z.eqb_spec n 0); [contradiction|].
    reflexivity.
  - intros ->. reflexivity.
  - intros ->. reflexivity.
  - intros ->. reflexivity.
  - intros n -> Hn. simpl. destruct (Z.eqb_spec n 0); lia.
  - apply Z.le_min_r.
  - apply Z.le_max_r.
Qed.

Lemma logs_limit_spec_witness :
  TaskRoutes.logs_limit (Examples.request Undefined (Some "-5")) = -5
  /\ TaskRoutes.logs_limit (Examples.request Undefined (Some "250")) = 100
  /\ TaskRoutes.logs_limit (Examples.request Undefined (Some "0")) = 50
  /\ TaskRoutes.logs_limit (Examples.request Undefined (Some "many")) = 50
  /\ TaskRoutes.logs_limit (Examples.request Undefined None) = 50.
Proof.
  split; [|split; [|split; [|split]]].
  - apply (proj1 (proj2 (proj2 (proj2 (proj2 (proj2
             (logs_limit_spec (Examples.request Undefined (Some "-5"))))))))
            (-5)); [reflexivity|lia].
  - apply (proj1 (proj2
             (logs_limit_spec (Examples.request Undefined (Some "250"))))
            250); [reflexivity|lia].
  - apply (proj1 (proj2 (proj2 (proj2 (proj2
             (logs_limit_spec (Examples.request Undefined (Some "0"))))))));
      reflexivity.
  - apply (proj1 (proj2 (proj2 (proj2
             (logs_limit_spec (Examples.request Undefined (Some "many")))))));
      reflexivity.
  - apply (proj1 (proj2 (proj2
             (logs_limit_spec (Examples.request Undefined None)))));
      reflexivity.
Defined.

(** ** The metadata bag *)

Lemma JSON_round_trip :
  forall v, representable v = true ->
  exists text, JSON_stringify v = Some text /\ JSON_parse text = v.
Proof.
  fix IH 1.
  intros [| | b | [n| | |] | s | elems | props] H; simpl in H;
    try discriminate; try (eexists; split; reflexivity).
  - (* arrays *)
    exists (JArray (map (fun e => match JSON_stringify e with
                                  | Some j => j
                                  | None => JNull
                                  end) elems)).
    split; [reflexivity|]. cbn [JSON_parse]. f_equal.
    induction elems as [|e elems IHelems]; [reflexivity|].
    cbn [forallb] in H. apply andb_prop in H. destruct H as [He Hrest].
    destruct (IH e He) as [text [Hs Hp]].
    cbn [map]. rewrite Hs, Hp. f_equal. exact (IHelems Hrest).
  - (* objects *)
    exists (JObject (flat_map (fun p => match JSON_stringify (snd p) with
                                        | Some j => [(fst p, j)]
                                        | None => []
                                        end) props)).
    split; [reflexivity|]. cbn [JSON_parse]. f_equal.
    induction props as [|[k e] props IHprops]; [reflexivity|].
    cbn [forallb snd] in H. apply andb_prop in H. destruct H as [He Hrest].
    destruct (IH e He) as [text [Hs Hp]].
    cbn [flat_map fst snd]. rewrite Hs. cbn [app map fst snd].
    rewrite Hp. f_equal. exact (IHprops Hrest).
Qed.

Lemma find_fresh (rows : list Row) (r : Row) :
  has_id (id r) rows = false ->
  find (fun x => String.eqb (id x) (id r)) (rows ++ [r])%list = Some r.
Proof.
  unfold has_id. induction rows as [|x rows IH]; simpl.
  - now rewrite String.eqb_refl.
  - destruct (String.eqb (id x) (id r)); simpl; [discriminate|exact IH].
Qed.

(** Saving a log with a fresh id and a valid status, then reading it back:
    the metadata read is what [JSON.parse] makes of what [JSON.stringify]
    wrote. *)
Lemma save_then_get (rows : list Row) (log : InteractionLog.t) :
  ~ In (InteractionLog.id log) (map id rows) ->
  InteractionLog.status log = "success"
  \/ InteractionLog.status log = "error" ->
  let db' := mkDb (rows ++ [DatabaseService.row_of_log log])%list None in
  DatabaseService.saveInteractionLog log (mkDb rows None) = (Returned tt, db')
  /\ DatabaseService.getInteractionLogById (InteractionLog.id log) db'
     = (Returned
          (Some (DatabaseService.log_of_row (DatabaseService.row_of_log log))),
        db').
Proof.
  intros Hid Hst db'. subst db'.
  assert (Hc : check_status (InteractionLog.status log) = true)
    by now apply check_status_valid.
  assert (Hh : has_id (InteractionLog.id log) rows = false).
  { destruct (has_id (InteractionLog.id log) rows) eqn:E; [|reflexivity].
    apply has_id_In in E. contradiction. }
  split.
  - run_statement.
    change (status (DatabaseService.row_of_log log))
      with (InteractionLog.status log).
    change (id (DatabaseService.row_of_log log)) with (InteractionLog.id log).
    now rewrite Hc, Hh.
  - run_statement. cbn [fst snd].
    change (InteractionLog.id log) with (id (DatabaseService.row_of_log log)).
    rewrite find_fresh; [reflexivity|exact Hh].
Qed.

(** C8 as stated fails: the bag the simulation builds for a request
    without context has a [context] property (whose value is [undefined]);
    the bag read back has none.  And a bag that holds [NaN] is read back
    holding [null]. *)
Lemma metadata_changes_on_round_trip :
  (exists db' log',
     DatabaseService.saveInteractionLog
       (Examples.log "d" "success" Examples.bag) Examples.healthy
     = (Returned tt, db')
     /\ DatabaseService.getInteractionLogById "d" db'
        = (Returned (Some log'), db')
     /\ InteractionLog.metadata log'
        = Object [("priority", Str "medium"); ("simulated", Bool true)]
     /\ InteractionLog.metadata log' <> Examples.bag)
  /\ (exists db' log',
        DatabaseService.saveInteractionLog
          (Examples.log "d" "success" Examples.nan_bag) Examples.healthy
        = (Returned tt, db')
        /\ DatabaseService.getInteractionLogById "d" db'
           = (Returned (Some log'), db')
        /\ InteractionLog.metadata log' = Object [("ratio", Null)]
        /\ InteractionLog.metadata log' <> Examples.nan_bag).
Proof.
  split; eexists; eexists; (split; [reflexivity|]);
    (split; [reflexivity|]); (split; [reflexivity|]); discriminate.
Qed.

(** C8, amended: for every log whose metadata bag holds only what JSON can
    spell (null, booleans, finite numbers, strings, arrays and plain
    objects of these: no [undefined] and no non-finite number at any
    depth), saving the log (fresh id, valid status, storage serving the
    statements) and reading it back by id returns a metadata value equal to
    the original. *)
Theorem metadata_round_trip (rows : list Row) (log : InteractionLog.t)
    (props : record) :
  ~ In (InteractionLog.id log) (map id rows) ->
  InteractionLog.status log = "success"
  \/ InteractionLog.status log = "error" ->
  InteractionLog.metadata log = Object props ->
  representable (Object props) = true ->
  exists db' log',
    DatabaseService.saveInteractionLog log (mkDb rows None)
    = (Returned tt, db')
    /\ DatabaseService.getInteractionLogById (InteractionLog.id log) db'
       = (Returned (Some log'), db')
    /\ InteractionLog.metadata log' = Object props.
Proof.
  intros Hid Hst Hm Hr.
  destruct (save_then_get rows log Hid Hst) as [Hsave Hget].
  eexists. eexists. split; [exact Hsave|]. split; [exact Hget|].
  cbn [DatabaseService.log_of_row DatabaseService.row_of_log
       InteractionLog.metadata metadata].
  rewrite Hm. cbn [truthy].
  destruct (JSON_round_trip (Object props) Hr) as [text [Hs Hp]].
  now rewrite Hs.
Qed.

Lemma metadata_round_trip_witness :
  exists db' log',
    DatabaseService.saveInteractionLog
      (Examples.log "d" "success" Examples.full_bag) Examples.healthy
    = (Returned tt, db')
    /\ DatabaseService.getInteractionLogById "d" db'
       = (Returned (Some log'), db')
    /\ InteractionLog.metadata log' = Examples.full_bag.
Proof.
  apply (metadata_round_trip (interaction_logs Examples.healthy)
           (Examples.log "d" "success" Examples.full_bag)
           [("priority", Str "high"); ("context", Str "Q4 sales data");
            ("simulated", Bool true)]).
  - simpl. intuition discriminate.
  - left. reflexivity.
  - reflexivity.
  - reflexivity.
Defined.

(** * Further properties of the code *)

(** ** Deleting rows *)

Lemma keep_others_absent (i : string) (rows : list Row) :
  ~ In i (map id rows) ->
  filter (fun r => negb (String.eqb (id r) i)) rows = rows.
Proof.
  induction rows as [|r rows IH]; simpl; intros H; [reflexivity|].
  destruct (String.eqb_spec (id r) i) as [E|E]; simpl.
  - exfalso. apply H. now left.
  - f_equal. apply IH. intros Hin. apply H. now right.
Qed.

Lemma keep_others_present (i : string) (rows : list Row) :
  NoDup (map id rows) -> In i (map id rows) ->
  S (List.length (filter (fun r => negb (String.eqb (id r) i)) rows))
  = List.length rows.
Proof.
  induction rows as [|r rows IH]; simpl; intros Hnd Hin; [contradiction|].
  apply NoDup_cons_iff in Hnd. destruct Hnd as [Hr Hrows].
  destruct (String.eqb_spec (id r) i) as [E|E]; simpl.
  - subst i. now rewrite keep_others_absent.
  - f_equal. apply IH; [exact Hrows|]. destruct Hin; [contradiction|assumption].
Qed.

Lemma keep_others_In (i : string) (rows : list Row) (r : Row) :
  In r (filter (fun x => negb (String.eqb (id x) i)) rows)
  <-> In r rows /\ id r <> i.
Proof.
  rewrite filter_In. split; intros [H1 H2]; split; try exact H1.
  - intros E. rewrite E, String.eqb_refl in H2. discriminate.
  - now destruct (String.eqb_spec (id r) i).
Qed.

(** X1: on a connection whose storage is sound, deleting an id that no row
    carries returns [false] and leaves the table as it is; the handler
    answers 404. *)
Theorem deleteById_absent (rows : list Row) (req : TaskRoutes.Request) :
  TaskRoutes.params_id req <> EmptyString ->
  ~ In (TaskRoutes.params_id req) (map id rows) ->
  DatabaseService.deleteInteractionLog (TaskRoutes.params_id req)
    (mkDb rows None)
  = (Returned false, mkDb rows None)
  /\ TaskRoutes.delete_log req (mkDb rows None)
     = (Returned (TaskRoutes.failure 404 "Interaction log not found"),
        mkDb rows None).
Proof.
  intros Hne Hid.
  assert (E : DatabaseService.deleteInteractionLog (TaskRoutes.params_id req)
                (mkDb rows None) = (Returned false, mkDb rows None)).
  { unfold DatabaseService.deleteInteractionLog, try_catch, bind,
      delete_by_id.
    rewrite prepare_healthy. cbn [fst snd].
    rewrite keep_others_absent by exact Hid.
    now rewrite Nat.sub_diag. }
  split; [exact E|].
  unfold TaskRoutes.delete_log, try_catch, bind.
  destruct (TaskRoutes.params_id req) eqn:P; [contradiction|].
  cbn [truthy isEmpty negb]. now rewrite E.
Qed.

Lemma deleteById_absent_witness :
  DatabaseService.deleteInteractionLog "a" (mkDb [Examples.row_b] None)
  = (Returned false, mkDb [Examples.row_b] None)
  /\ TaskRoutes.delete_log (Examples.request Undefined None)
       (mkDb [Examples.row_b] None)
     = (Returned (TaskRoutes.failure 404 "Interaction log not found"),
        mkDb [Examples.row_b] None).
Proof.
  apply (deleteById_absent [Examples.row_b]
           (Examples.request Undefined None)).
  - discriminate.
  - simpl. intuition discriminate.
Defined.

(** X2: on a table whose ids are unique, deleting an id that a row carries
    returns [true], removes exactly one row, the one with that id, and keeps
    every other row; the handler answers 200. *)
Theorem deleteById_present (rows : list Row) (req : TaskRoutes.Request) :
  TaskRoutes.params_id req <> EmptyString ->
  NoDup (map id rows) ->
  In (TaskRoutes.params_id req) (map id rows) ->
  exists rows',
    DatabaseService.deleteInteractionLog (TaskRoutes.params_id req)
      (mkDb rows None)
    = (Returned true, mkDb rows' None)
    /\ TaskRoutes.delete_log req (mkDb rows None)
       = (Returned
            (TaskRoutes.ok None "Interaction log deleted successfully"),
          mkDb rows' None)
    /\ S (List.length rows') = List.length rows
    /\ (forall r, In r rows' <->
                  In r rows /\ id r <> TaskRoutes.params_id req).
Proof.
  intros Hne Hnd Hin.
  set (i := TaskRoutes.params_id req) in *.
  exists (filter (fun r => negb (String.eqb (id r) i)) rows).
  pose proof (keep_others_present i rows Hnd Hin) as Hlen.
  assert (E : DatabaseService.deleteInteractionLog i (mkDb rows None)
              = (Returned true,
                 mkDb (filter (fun r => negb (String.eqb (id r) i)) rows)
                   None)).
  { unfold DatabaseService.deleteInteractionLog, try_catch, bind,
      delete_by_id.
    rewrite prepare_healthy. cbn [fst snd ret].
    replace (Z.of_nat _ >? 0) with true; [reflexivity|].
    symmetry. apply Z.gtb_lt. lia. }
  split; [exact E|]. split; [|split; [exact Hlen|]].
  - unfold TaskRoutes.delete_log, try_catch, bind. fold i.
    destruct i eqn:P; [contradiction|].
    cbn [truthy isEmpty negb]. now rewrite E.
  - intros r. apply keep_others_In.
Qed.

Lemma deleteById_present_witness :
  exists rows',
    TaskRoutes.delete_log (Examples.request Undefined None) Examples.healthy
    = (Returned (TaskRoutes.ok None "Interaction log deleted successfully"),
       mkDb rows' None)
    /\ S (List.length rows') = 3%nat.
Proof.
  destruct (deleteById_present (interaction_logs Examples.healthy)
              (Examples.request Undefined None)) as [rows' [_ [H1 [H2 _]]]].
  - discriminate.
  - repeat constructor; simpl; intuition discriminate.
  - simpl. auto.
  - exists rows'. split; [exact H1|exact H2].
Defined.

(** X3: [deleteAll] on a table of M rows returns M and leaves no row; on
    what it leaves, a second [deleteAll] returns 0, [list] returns the empty
    sequence (for every limit and offset strictly between -2^63 and 2^63)
    and [stats] returns the three zeros. *)
Theorem deleteAll_empties (rows : list Row) :
  exists db',
    DatabaseService.deleteAllInteractionLogs (mkDb rows None)
    = (Returned (Z.of_nat (List.length rows)), db')
    /\ interaction_logs db' = []
    /\ DatabaseService.deleteAllInteractionLogs db' = (Returned 0, db')
    /\ (forall limit offset,
          - 2 ^ 63 < limit < 2 ^ 63 -> - 2 ^ 63 < offset < 2 ^ 63 ->
          DatabaseService.getInteractionLogs limit offset db'
          = (Returned [], db'))
    /\ DatabaseService.getStats db' = (Returned Store.zero_stats, db').
Proof.
  exists (mkDb [] None). repeat split.
  intros limit offset Hl Ho.
  rewrite getInteractionLogs_healthy by assumption.
  unfold limit_offset. simpl. rewrite skipn_nil.
  destruct (limit <? 0); [reflexivity|]. now rewrite firstn_nil.
Qed.

Lemma deleteAll_empties_witness :
  exists db',
    DatabaseService.deleteAllInteractionLogs Examples.healthy
    = (Returned 3, db')
    /\ DatabaseService.getInteractionLogs 50 0 db' = (Returned [], db').
Proof.
  destruct (deleteAll_empties (interaction_logs Examples.healthy))
    as [db' [H1 [_ [_ [H2 _]]]]].
  exists db'. split; [exact H1|]. apply H2; lia.
Defined.

(** ** Looking a log up *)

Lemma find_absent (i : string) (rows : list Row) :
  ~ In i (map id rows) ->
  find (fun r => String.eqb (id r) i) rows = None.
Proof.
  induction rows as [|r rows IH]; simpl; intros H; [reflexivity|].
  destruct (String.eqb_spec (id r) i) as [E|E].
  - exfalso. apply H. now left.
  - apply IH. intros Hin. apply H. now right.
Qed.

Lemma find_present (r : Row) (rows : list Row) :
  NoDup (map id rows) -> In r rows ->
  find (fun x => String.eqb (id x) (id r)) rows = Some r.
Proof.
  induction rows as [|x rows IH]; simpl; intros Hnd Hin; [contradiction|].
  apply NoDup_cons_iff in Hnd. destruct Hnd as [Hx Hrows].
  destruct Hin as [->|Hin].
  - now rewrite String.eqb_refl.
  - destruct (String.eqb_spec (id x) (id r)) as [E|E]; [|now apply IH].
    exfalso. apply Hx. rewrite E. now apply in_map.
Qed.

(** X4: looking up an id that no row carries returns the not-found result
    and does not throw; [GET /tasks/logs/{id}] answers 404. *)
Theorem getById_absent (rows : list Row) (req : TaskRoutes.Request) :
  ~ In (TaskRoutes.params_id req) (map id rows) ->
  DatabaseService.getInteractionLogById (TaskRoutes.params_id req)
    (mkDb rows None)
  = (Returned None, mkDb rows None)
  /\ TaskRoutes.get_log req (mkDb rows None)
     = (Returned (TaskRoutes.failure 404 "Interaction log not found"),
        mkDb rows None).
Proof.
  intros H.
  assert (E : DatabaseService.getInteractionLogById (TaskRoutes.params_id req)
                (mkDb rows None) = (Returned None, mkDb rows None)).
  { run_statement. cbn [fst snd]. now rewrite find_absent. }
  split; [exact E|].
  unfold TaskRoutes.get_log, try_catch, bind. now rewrite E.
Qed.

Lemma getById_absent_witness :
  TaskRoutes.get_log (Examples.request Undefined None)
    (mkDb [Examples.row_b] None)
  = (Returned (TaskRoutes.failure 404 "Interaction log not found"),
     mkDb [Examples.row_b] None).
Proof.
  apply (getById_absent [Examples.row_b] (Examples.request Undefined None)).
  simpl. intuition discriminate.
Defined.

(** X5: on a table whose ids are unique, looking up the id of a row returns
    that row, as the log [log_of_row] makes of it; [GET /tasks/logs/{id}]
    answers 200 with it.  The table is not changed. *)
Theorem getById_present (rows : list Row) (r : Row)
    (req : TaskRoutes.Request) :
  NoDup (map id rows) -> In r rows -> TaskRoutes.params_id req = id r ->
  DatabaseService.getInteractionLogById (id r) (mkDb rows None)
  = (Returned (Some (DatabaseService.log_of_row r)), mkDb rows None)
  /\ TaskRoutes.get_log req (mkDb rows None)
     = (Returned
          (TaskRoutes.ok
             (Some (TaskRoutes.LogData (DatabaseService.log_of_row r)))
             "Interaction log retrieved successfully"),
        mkDb rows None).
Proof.
  intros Hnd Hin Hid.
  assert (E : DatabaseService.getInteractionLogById (id r) (mkDb rows None)
              = (Returned (Some (DatabaseService.log_of_row r)),
                 mkDb rows None)).
  { run_statement. cbn [fst snd]. now rewrite find_present. }
  split; [exact E|].
  unfold TaskRoutes.get_log, try_catch, bind. rewrite Hid. now rewrite E.
Qed.

Lemma getById_present_witness :
  TaskRoutes.get_log (Examples.request Undefined None) Examples.healthy
  = (Returned
       (TaskRoutes.ok
          (Some (TaskRoutes.LogData
                   (DatabaseService.log_of_row Examples.row_a)))
          "Interaction log retrieved successfully"),
     Examples.healthy).
Proof.
  apply (getById_present (interaction_logs Examples.healthy) Examples.row_a
           (Examples.request Undefined None)).
  - repeat constructor; simpl; intuition discriminate.
  - simpl. auto.
  - reflexivity.
Defined.

(** ** What [stats] computes *)

Lemma getStats_nonempty (r : Row) (rows : list Row) :
  DatabaseService.getStats (mkDb (r :: rows) None)
  = (Returned
       (DatabaseService.mkStats
          (Z.of_nat (List.length (r :: rows)))
          (inject_Z (Z.of_nat (Store.success_count (r :: rows)))
           / inject_Z (Z.of_nat (List.length (r :: rows))) * 100)%Q
          (DatabaseService.or_zero
             (Some (inject_Z (Store.total_time (r :: rows))
                    / inject_Z (Z.of_nat (List.length (r :: rows))))%Q))),
     mkDb (r :: rows) None).
Proof.
  run_statement. cbn [fst snd ret total success avg_time].
  rewrite SUM_case_success, SUM_processing_time.
  cbn [number_or DatabaseService.to_number].
  set (N := Z.of_nat (List.length (r :: rows))).
  assert (HN : 0 < N) by (subst N; simpl List.length; lia).
  destruct (Z.eqb_spec N 0); [lia|].
  replace (N >? 0) with true by (symmetry; apply Z.gtb_lt; lia).
  reflexivity.
Qed.

Lemma getStats_count (rows : list Row) :
  exists s,
    DatabaseService.getStats (mkDb rows None) = (Returned s, mkDb rows None)
    /\ DatabaseService.totalInteractions s = Z.of_nat (List.length rows).
Proof.
  destruct rows as [|r rows].
  - exists Store.zero_stats. split; reflexivity.
  - eexists. split; [apply getStats_nonempty|reflexivity].
Qed.

(** ** Saving a log *)

Lemma find_other (i : string) (rows : list Row) (r : Row) :
  id r <> i ->
  find (fun x => String.eqb (id x) i) (rows ++ [r])%list
  = find (fun x => String.eqb (id x) i) rows.
Proof.
  intros H. induction rows as [|x rows IH]; simpl.
  - now destruct (String.eqb_spec (id r) i).
  - destruct (String.eqb (id x) i); [reflexivity|exact IH].
Qed.

(** X6: a save that succeeds (fresh id, valid status, sound storage) adds
    exactly one row, at the end of the table, and changes nothing else:
    [stats] counts one interaction more, and the lookup of any other id
    returns what it returned before. *)
Theorem save_adds_one_row (rows : list Row) (log : InteractionLog.t) :
  ~ In (InteractionLog.id log) (map id rows) ->
  InteractionLog.status log = "success"
  \/ InteractionLog.status log = "error" ->
  exists db',
    DatabaseService.saveInteractionLog log (mkDb rows None)
    = (Returned tt, db')
    /\ interaction_logs db'
       = (rows ++ [DatabaseService.row_of_log log])%list
    /\ (exists s s',
          fst (DatabaseService.getStats (mkDb rows None)) = Returned s
          /\ fst (DatabaseService.getStats db') = Returned s'
          /\ DatabaseService.totalInteractions s'
             = DatabaseService.totalInteractions s + 1)
    /\ (forall j, j <> InteractionLog.id log ->
          fst (DatabaseService.getInteractionLogById j db')
          = fst (DatabaseService.getInteractionLogById j (mkDb rows None))).
Proof.
  intros Hid Hst.
  destruct (save_then_get rows log Hid Hst) as [Hsave _].
  eexists. split; [exact Hsave|]. split; [reflexivity|]. split.
  - destruct (getStats_count rows) as [s [Hs Ht]].
    destruct (getStats_count
                (rows ++ [DatabaseService.row_of_log log])%list)
      as [s' [Hs' Ht']].
    exists s, s'. rewrite Hs, Hs'. repeat split.
    rewrite Ht, Ht', length_app. simpl. lia.
  - intros j Hj. run_statement. symmetry. run_statement. cbn [fst snd].
    rewrite find_other by (intros E; apply Hj; now rewrite <- E).
    now destruct (find _ rows).
Qed.

Lemma save_adds_one_row_witness :
  exists db',
    DatabaseService.saveInteractionLog (Examples.log "d" "error" Null)
      Examples.healthy
    = (Returned tt, db')
    /\ List.length (interaction_logs db') = 4%nat.
Proof.
  destruct (save_adds_one_row (interaction_logs Examples.healthy)
              (Examples.log "d" "error" Null)) as [db' [H1 [H2 _]]].
  - simpl. intuition discriminate.
  - right. reflexivity.
  - exists db'. split; [exact H1|]. rewrite H2. reflexivity.
Defined.

Lemma success_count_le (rows : list Row) :
  (Store.success_count rows <= List.length rows)%nat.
Proof. unfold Store.success_count. apply filter_length_le. Qed.

(** X7: whatever the table and whether or not the storage fails, [stats]
    returns a count that is not negative and a success rate between 0 and
    100. *)
Theorem getStats_rate_bounds (db : Db) :
  exists s,
    DatabaseService.getStats db = (Returned s, db)
    /\ 0 <= DatabaseService.totalInteractions s
    /\ (0 <= DatabaseService.successRate s)%Q
    /\ (DatabaseService.successRate s <= 100)%Q.
Proof.
  destruct db as [rows [e|]]; [|destruct rows as [|r rows]].
  - exists Store.zero_stats. repeat split; simpl; try lia; discriminate.
  - exists Store.zero_stats. repeat split; simpl; try lia; discriminate.
  - eexists. split; [apply getStats_nonempty|].
    cbn [DatabaseService.totalInteractions DatabaseService.successRate].
    set (all := r :: rows).
    pose proof (success_count_le all) as Hle.
    assert (HN : (0 < List.length all)%nat) by (simpl; lia).
    set (S := Store.success_count all) in *.
    set (N := List.length all) in *.
    assert (HNq : (0 < inject_Z (Z.of_nat N))%Q)
      by (rewrite <- (Zlt_Qlt 0); lia).
    split; [lia|]. split.
    + apply Qmult_le_0_compat; [|discriminate].
      apply Qle_shift_div_l; [exact HNq|].
      rewrite Qmult_0_l. rewrite <- (Zle_Qle 0). lia.
    + setoid_replace 100%Q with (1 * 100)%Q at 2 by reflexivity.
      apply Qmult_le_compat_r; [|discriminate].
      apply Qle_shift_div_r; [exact HNq|].
      rewrite Qmult_1_l. rewrite <- Zle_Qle. lia.
Qed.

Lemma total_time_bounds (lo hi : Z) (rows : list Row) :
  Forall (fun r => lo <= processing_time r <= hi) rows ->
  lo * Z.of_nat (List.length rows) <= Store.total_time rows
  <= hi * Z.of_nat (List.length rows).
Proof.
  induction 1 as [|r rows Hr _ IH]; simpl Store.total_time;
    simpl List.length; lia.
Qed.

(** X8: on a table that is not empty (sound storage), the average
    processing time [stats] returns lies between any two bounds that hold
    for the processing time of every row: it is the mean and not, say, a
    sum. *)
Theorem getStats_average_bounds (lo hi : Z) (r : Row) (rows : list Row) :
  Forall (fun x => lo <= processing_time x <= hi) (r :: rows) ->
  exists s,
    DatabaseService.getStats (mkDb (r :: rows) None)
    = (Returned s, mkDb (r :: rows) None)
    /\ (inject_Z lo <= DatabaseService.averageProcessingTime s)%Q
    /\ (DatabaseService.averageProcessingTime s <= inject_Z hi)%Q.
Proof.
  intros H. eexists. split; [apply getStats_nonempty|].
  cbn [DatabaseService.averageProcessingTime]. rewrite or_zero_some.
  pose proof (total_time_bounds lo hi _ H) as [Hlo Hhi].
  set (N := List.length (r :: rows)) in *.
  assert (HN : 0 < Z.of_nat N) by (subst N; simpl List.length; lia).
  assert (HNq : (0 < inject_Z (Z.of_nat N))%Q)
    by (rewrite <- (Zlt_Qlt 0); exact HN).
  split.
  - apply Qle_shift_div_l; [exact HNq|].
    rewrite <- inject_Z_mult, <- Zle_Qle. exact Hlo.
  - apply Qle_shift_div_r; [exact HNq|].
    rewrite <- inject_Z_mult, <- Zle_Qle. exact Hhi.
Qed.

Lemma getStats_average_bounds_witness :
  exists s,
    DatabaseService.getStats Examples.healthy = (Returned s, Examples.healthy)
    /\ (inject_Z 600 <= DatabaseService.averageProcessingTime s)%Q
    /\ (DatabaseService.averageProcessingTime s <= inject_Z 1200)%Q.
Proof.
  apply (getStats_average_bounds 600 1200 Examples.row_a
           [Examples.row_b; Examples.row_c]).
  repeat constructor; simpl; lia.
Defined.

(** ** Pages *)

Lemma firstn_add {A : Type} (a b : nat) (l : list A) :
  firstn (a + b) l = (firstn a l ++ firstn b (skipn a l))%list.
Proof.
  revert l. induction a as [|a IH]; intros [|x l]; simpl;
    try reflexivity.
  - now rewrite firstn_nil.
  - now rewrite IH.
Qed.

(** X9: consecutive pages tile the listing: the page of [k1] rows at
    [offset] followed by the page of [k2] rows at [offset + k1] is the page
    of [k1 + k2] rows at [offset], as long as [offset + k1 + k2] is below
    2^63; no row is repeated and none is skipped between two pages (sound
    storage, table not changed in between). *)
Theorem pages_tile (rows : list Row) (k1 k2 offset : nat) :
  Z.of_nat (offset + k1 + k2) < 2 ^ 63 ->
  exists page1 page2,
    DatabaseService.getInteractionLogs (Z.of_nat k1) (Z.of_nat offset)
      (mkDb rows None)
    = (Returned page1, mkDb rows None)
    /\ DatabaseService.getInteractionLogs (Z.of_nat k2)
         (Z.of_nat (offset + k1)) (mkDb rows None)
       = (Returned page2, mkDb rows None)
    /\ DatabaseService.getInteractionLogs (Z.of_nat (k1 + k2))
         (Z.of_nat offset) (mkDb rows None)
       = (Returned (page1 ++ page2)%list, mkDb rows None).
Proof.
  intros Hrange.
  eexists. eexists. rewrite !getInteractionLogs_healthy by lia.
  split; [reflexivity|]. split; [reflexivity|].
  unfold limit_offset. rewrite !Nat2Z.id.
  destruct (Z.ltb_spec (Z.of_nat k1) 0); [lia|].
  destruct (Z.ltb_spec (Z.of_nat k2) 0); [lia|].
  destruct (Z.ltb_spec (Z.of_nat (k1 + k2)) 0); [lia|].
  rewrite firstn_add, map_app, skipn_skipn.
  now rewrite (Nat.add_comm k1 offset).
Qed.

Lemma pages_tile_witness :
  exists page1 page2,
    DatabaseService.getInteractionLogs 1 1 Examples.healthy
    = (Returned page1, Examples.healthy)
    /\ DatabaseService.getInteractionLogs 1 2 Examples.healthy
       = (Returned page2, Examples.healthy)
    /\ DatabaseService.getInteractionLogs 2 1 Examples.healthy
       = (Returned (page1 ++ page2)%list, Examples.healthy).
Proof.
  apply (pages_tile (interaction_logs Examples.healthy) 1 1 1).
  reflexivity.
Defined.

(** X10: the store honours a negative limit as no limit: [list] then
    returns every row from the offset on.  Through [GET /tasks/logs] (sound
    storage) a limit parameter that parses to a negative number, down to
    -2^53, therefore lifts the bound of 100 rows, which holds for every
    limit that is not negative (offsets up to 2^53); the answer has status
    200.  A limit at or below -2^64, or an offset at or above 2^64, is
    refused by the engine and the answer has status 500.  (Between 2^53 and
    2^64 the number [parseInt] returns is not always the integer
    written.) *)
Theorem negative_limit_is_no_limit (rows : list Row)
    (req : TaskRoutes.Request) :
  (- 2 ^ 53 <= TaskRoutes.logs_limit req ->
   TaskRoutes.logs_offset req <= 2 ^ 53 ->
   exists logs,
     TaskRoutes.get_logs req (mkDb rows None)
     = (Returned
          (TaskRoutes.ok (Some (TaskRoutes.LogsData logs))
             ("Retrieved " ++ TaskRoutes.decimal (Z.of_nat (List.length logs))
              ++ " interaction logs")),
        mkDb rows None)
     /\ (0 <= TaskRoutes.logs_limit req -> (List.length logs <= 100)%nat)
     /\ (TaskRoutes.logs_limit req < 0 ->
         List.length logs
         = (List.length rows - Z.to_nat (TaskRoutes.logs_offset req))%nat))
  /\ (TaskRoutes.logs_limit req <= - 2 ^ 64
      \/ 2 ^ 64 <= TaskRoutes.logs_offset req ->
      TaskRoutes.get_logs req (mkDb rows None)
      = (Returned
           (TaskRoutes.failure 500
              "Internal server error while retrieving logs"),
         mkDb rows None)).
Proof.
  assert (Hmax : TaskRoutes.logs_limit req <= 100) by apply Z.le_min_r.
  assert (Hmin : 0 <= TaskRoutes.logs_offset req) by apply Z.le_max_r.
  split.
  - intros Hl Ho. eexists. split; [|split].
    + unfold TaskRoutes.get_logs, try_catch, bind.
      rewrite getInteractionLogs_healthy by lia. reflexivity.
    + intros H. rewrite length_map. unfold limit_offset.
      destruct (Z.ltb_spec (TaskRoutes.logs_limit req) 0); [lia|].
      rewrite length_firstn. lia.
    + intros H. rewrite length_map. unfold limit_offset.
      destruct (Z.ltb_spec (TaskRoutes.logs_limit req) 0); [|lia].
      rewrite length_skipn.
      now rewrite (Permutation_length (order_by_timestamp_desc_perm rows)).
  - intros H. unfold TaskRoutes.get_logs, try_catch, bind.
    rewrite getInteractionLogs_mismatch by lia. reflexivity.
Qed.

Lemma negative_limit_is_no_limit_witness :
  (exists logs,
     TaskRoutes.get_logs (Examples.request Undefined (Some "-1"))
       Examples.healthy
     = (Returned
          (TaskRoutes.ok (Some (TaskRoutes.LogsData logs))
             ("Retrieved " ++ TaskRoutes.decimal (Z.of_nat (List.length logs))
              ++ " interaction logs")),
        Examples.healthy)
     /\ List.length logs = 3%nat)
  /\ TaskRoutes.get_logs
       (Examples.request Undefined (Some "-99999999999999999999"))
       Examples.healthy
     = (Returned
          (TaskRoutes.failure 500
             "Internal server error while retrieving logs"),
        Examples.healthy).
Proof.
  split.
  - destruct (proj1 (negative_limit_is_no_limit
                       (interaction_logs Examples.healthy)
                       (Examples.request Undefined (Some "-1"))))
      as [logs [H1 [_ H2]]].
    + vm_compute. discriminate.
    + vm_compute. discriminate.
    + exists logs. split; [exact H1|]. apply H2. reflexivity.
  - apply (proj2 (negative_limit_is_no_limit
                    (interaction_logs Examples.healthy)
                    (Examples.request Undefined
                       (Some "-99999999999999999999")))).
    left. vm_compute. discriminate.
Defined.

(** ** A log saved and read back *)

(** X11: a log saved (fresh id, valid status, sound storage) with a user
    agent and an address that are not empty, and a metadata that is absent
    or a bag JSON can spell, is read back by id as the log that was saved,
    field by field. *)
Theorem log_round_trip (rows : list Row) (log : InteractionLog.t)
    (agent address : string) :
  ~ In (InteractionLog.id log) (map id rows) ->
  InteractionLog.status log = "success"
  \/ InteractionLog.status log = "error" ->
  InteractionLog.userAgent log = Some agent -> agent <> EmptyString ->
  InteractionLog.ipAddress log = Some address -> address <> EmptyString ->
  InteractionLog.metadata log = Undefined
  \/ (exists props, InteractionLog.metadata log = Object props
                    /\ representable (Object props) = true) ->
  exists db',
    DatabaseService.saveInteractionLog log (mkDb rows None)
    = (Returned tt, db')
    /\ DatabaseService.getInteractionLogById (InteractionLog.id log) db'
       = (Returned (Some log), db').
Proof.
  intros Hid Hst Hua Hune Hip Hipne Hm.
  destruct (save_then_get rows log Hid Hst) as [Hsave Hget].
  eexists. split; [exact Hsave|]. rewrite Hget. do 3 f_equal.
  destruct log as [i t r s ts pt ua ip m].
  unfold DatabaseService.log_of_row, DatabaseService.row_of_log.
  cbn [id task response status timestamp processing_time user_agent
       ip_address metadata InteractionLog.id InteractionLog.task
       InteractionLog.response InteractionLog.status
       InteractionLog.timestamp InteractionLog.processingTime
       InteractionLog.userAgent InteractionLog.ipAddress
       InteractionLog.metadata] in *.
  subst ua ip. f_equal.
  - destruct agent; [contradiction|reflexivity].
  - destruct address; [contradiction|reflexivity].
  - destruct Hm as [->|[props [-> Hr]]]; [reflexivity|].
    cbn [truthy].
    destruct (JSON_round_trip (Object props) Hr) as [text [Hs Hp]].
    now rewrite Hs.
Qed.

Lemma log_round_trip_witness :
  exists db',
    DatabaseService.saveInteractionLog
      (Examples.log "d" "success" Examples.full_bag) Examples.healthy
    = (Returned tt, db')
    /\ DatabaseService.getInteractionLogById "d" db'
       = (Returned (Some (Examples.log "d" "success" Examples.full_bag)),
          db').
Proof.
  apply (log_round_trip (interaction_logs Examples.healthy)
           (Examples.log "d" "success" Examples.full_bag)
           "curl/8.0" "127.0.0.1").
  - simpl. intuition discriminate.
  - left. reflexivity.
  - reflexivity.
  - discriminate.
  - reflexivity.
  - discriminate.
  - right. eexists. split; reflexivity.
Defined.

(** ** The two strategies *)

Lemma acknowledgement_not_empty (w : AIService.World)
    (request : TaskRequest.t) :
  AIService.acknowledgement w request <> EmptyString.
Proof. discriminate. Qed.

Lemma strategy_returns (OPENAI_API_KEY : option string)
    (w : AIService.World) (request : TaskRequest.t) :
  exists r,
    Flow.strategy OPENAI_API_KEY w request = Returned r
    /\ TaskResponse.id r = AIService.uuidv4 w
    /\ TaskResponse.task r = TaskRequest.task request
    /\ (TaskResponse.status r = "success"
        \/ TaskResponse.status r = "error").
Proof.
  unfold Flow.strategy, AIService.processTask,
    AIService.simulateTaskProcessing.
  destruct (truthy_str OPENAI_API_KEY);
    [destruct (AIService.generateResponse w request)|];
    eexists; (split; [reflexivity|]); repeat split; auto.
Qed.

(** X12: whichever strategy runs and whatever the backend does, the result
    carries the uuid that was drawn, the task of the request, the clock
    readings, a status that is [success] or [error], and a response that is
    not empty: it is a log the table accepts. *)
Theorem strategy_result (OPENAI_API_KEY : option string)
    (w : AIService.World) (request : TaskRequest.t) :
  exists r,
    Flow.strategy OPENAI_API_KEY w request = Returned r
    /\ TaskResponse.id r = AIService.uuidv4 w
    /\ TaskResponse.task r = TaskRequest.task request
    /\ TaskResponse.timestamp r = AIService.toISOString w
    /\ TaskResponse.processingTime r
       = AIService.Date_now w - AIService.startTime w
    /\ (TaskResponse.status r = "success" \/ TaskResponse.status r = "error")
    /\ TaskResponse.response r <> EmptyString.
Proof.
  unfold Flow.strategy. destruct (truthy_str OPENAI_API_KEY).
  - unfold AIService.processTask.
    destruct (AIService.generateResponse w request) as [response|error] eqn:G.
    + eexists. split; [reflexivity|]. repeat split; [now left|].
      cbn [TaskResponse.response].
      unfold AIService.generateResponse in G.
      destruct (AIService.create w _) as [completion|e]; [|discriminate].
      destruct (AIService.choices completion) as [cs|]; [|discriminate].
      injection G as <-. unfold AIService.content_or.
      destruct cs as [|[m] cs]; [discriminate|].
      destruct m as [[c]|]; [|discriminate].
      destruct c as [[|a c]|]; discriminate.
    + eexists. split; [reflexivity|]. repeat split; [now right|].
      discriminate.
  - unfold AIService.simulateTaskProcessing.
    eexists. split; [reflexivity|]. repeat split; [now left|].
    cbn [TaskResponse.response].
    destruct (includes _ "analyze leads"); [discriminate|].
    destruct (includes _ "summarize calls"); [discriminate|].
    destruct (includes _ "update client report"); [discriminate|].
    apply acknowledgement_not_empty.
Qed.

(** ** A submission that is accepted *)

Lemma nonblank_not_empty (s : string) :
  String.length (trim s) <> 0%nat -> isEmpty s = false.
Proof. destruct s; [intros H; now contradiction H|reflexivity]. Qed.

Lemma post_process_saves (OPENAI_API_KEY : option string)
    (w : AIService.World) (req : TaskRoutes.Request) (db : Db) (s : string)
    (r : TaskResponse.t) :
  TaskRoutes.body_task req = Str s ->
  String.length (trim s) <> 0%nat ->
  Flow.strategy OPENAI_API_KEY w (Flow.taskRequest s req) = Returned r ->
  TaskRoutes.post_process OPENAI_API_KEY w req db
  = match DatabaseService.saveInteractionLog (Flow.interactionLog r req) db
    with
    | (Returned _, db') =>
        (Returned
           (TaskRoutes.ok (Some (TaskRoutes.TaskData r))
              "Task processed successfully"),
         db')
    | (Threw _, db') =>
        (Returned
           (TaskRoutes.failure 500
              "Internal server error while processing task"),
         db')
    end.
Proof.
  intros Htask Hs Hr.
  unfold TaskRoutes.post_process, try_catch, bind. rewrite Htask.
  cbn [truthy]. rewrite (nonblank_not_empty s Hs).
  destruct (Nat.eqb_spec (String.length (trim s)) 0); [contradiction|].
  cbn [negb orb].
  change (if truthy_str OPENAI_API_KEY
          then AIService.processTask w _
          else AIService.simulateTaskProcessing w _)
    with (Flow.strategy OPENAI_API_KEY w (Flow.taskRequest s req)).
  rewrite Hr. cbn [TaskRoutes.await ret].
  change (InteractionLog.mk _ _ _ _ _ _ _ _ _)
    with (Flow.interactionLog r req).
  now destruct (DatabaseService.saveInteractionLog _ db) as [[u|e] db'].
Qed.

(** X13: a submission whose task is a string that is not blank, handled
    while the storage is sound and the uuid drawn is not yet an id of the
    table, is answered with status 200 and the result of the strategy, run
    on the trimmed task; the table gains exactly one row, the log of that
    result with the caller's user agent and address, and that row is what a
    lookup of the result's id then finds. *)
Theorem accepted_task_is_logged (OPENAI_API_KEY : option string)
    (w : AIService.World) (req : TaskRoutes.Request) (rows : list Row)
    (s : string) :
  TaskRoutes.body_task req = Str s ->
  String.length (trim s) <> 0%nat ->
  ~ In (AIService.uuidv4 w) (map id rows) ->
  exists r,
    Flow.strategy OPENAI_API_KEY w (Flow.taskRequest s req) = Returned r
    /\ TaskResponse.task r = trim s
    /\ let db' :=
         mkDb (rows ++ [DatabaseService.row_of_log
                          (Flow.interactionLog r req)])%list None in
       TaskRoutes.post_process OPENAI_API_KEY w req (mkDb rows None)
       = (Returned
            (TaskRoutes.ok (Some (TaskRoutes.TaskData r))
               "Task processed successfully"),
          db')
       /\ DatabaseService.getInteractionLogById (TaskResponse.id r) db'
          = (Returned
               (Some (DatabaseService.log_of_row
                        (DatabaseService.row_of_log
                           (Flow.interactionLog r req)))),
             db').
Proof.
  intros Htask Hs Hid.
  destruct (strategy_returns OPENAI_API_KEY w (Flow.taskRequest s req))
    as [r [Hr [Hrid [Hrtask Hst]]]].
  exists r. split; [exact Hr|]. split; [exact Hrtask|].
  assert (Hfresh : ~ In (InteractionLog.id (Flow.interactionLog r req))
                     (map id rows)) by (simpl; now rewrite Hrid).
  destruct (save_then_get rows (Flow.interactionLog r req) Hfresh Hst)
    as [Hsave Hget].
  cbv zeta. split; [|exact Hget].
  rewrite (post_process_saves _ _ _ _ s r Htask Hs Hr). now rewrite Hsave.
Qed.

Lemma accepted_task_is_logged_witness :
  exists r db',
    TaskRoutes.post_process None Examples.offline
      (Examples.request (Str " xyz123 ") None) Examples.healthy
    = (Returned
         (TaskRoutes.ok (Some (TaskRoutes.TaskData r))
            "Task processed successfully"),
       db')
    /\ TaskResponse.task r = "xyz123"
    /\ List.length (interaction_logs db') = 4%nat.
Proof.
  destruct (accepted_task_is_logged None Examples.offline
              (Examples.request (Str " xyz123 ") None)
              (interaction_logs Examples.healthy) " xyz123 ")
    as [r [_ [Ht [Hp _]]]].
  - reflexivity.
  - discriminate.
  - simpl. intuition discriminate.
  - exists r. eexists. split; [exact Hp|]. split; [exact Ht|].
    reflexivity.
Defined.



(** X15: when the log of an accepted submission cannot be saved, because
    the storage fails or because the uuid drawn is already an id of the
    table, the answer has status 500 and the table is what it was: the
    result that was generated is not returned and not recorded. *)
Theorem unsaved_submission (OPENAI_API_KEY : option string)
    (w : AIService.World) (req : TaskRoutes.Request) (db : Db)
    (s : string) :
  TaskRoutes.body_task req = Str s ->
  String.length (trim s) <> 0%nat ->
  fault db <> None \/ In (AIService.uuidv4 w) (map id (interaction_logs db)) ->
  TaskRoutes.post_process OPENAI_API_KEY w req db
  = (Returned
       (TaskRoutes.failure 500 "Internal server error while processing task"),
     db).
Proof.
  intros Htask Hs Hbad.
  destruct (strategy_returns OPENAI_API_KEY w (Flow.taskRequest s req))
    as [r [Hr [Hrid _]]].
  assert (Hsave : exists e,
             DatabaseService.saveInteractionLog (Flow.interactionLog r req) db
             = (Threw e, db)).
  { destruct db as [rows [e|]]; [now exists e|].
    apply save_rejected. left. simpl in *. rewrite Hrid.
    destruct Hbad as [H|H]; [now contradiction H|exact H]. }
  destruct Hsave as [e Hsave].
  rewrite (post_process_saves _ _ _ _ s r Htask Hs Hr). now rewrite Hsave.
Qed.

Lemma unsaved_submission_witness :
  TaskRoutes.post_process None Examples.offline
    (Examples.request (Str "xyz123") None) Examples.faulty
  = (Returned
       (TaskRoutes.failure 500 "Internal server error while processing task"),
     Examples.faulty).
Proof.
  apply (unsaved_submission None Examples.offline
           (Examples.request (Str "xyz123") None) Examples.faulty "xyz123").
  - reflexivity.
  - discriminate.
  - left. discriminate.
Defined.

(** ** The health check *)

(** X16: the health check answers 200, [healthy] and [connected] whatever
    the state of the storage: its connectivity test is [getStats], which
    returns zeros instead of throwing when the storage fails, so the
    handler never answers 503.  The connection is not changed. *)
Theorem health_is_always_healthy (p : HealthRoutes.Process) (db : Db) :
  HealthRoutes.get_health p db
  = (Returned
       (HealthRoutes.mkResponse 200 true
          (HealthRoutes.mkHealthCheck "healthy"
             (HealthRoutes.toISOString p)
             (Qfloor (HealthRoutes.process_uptime p))
             (HealthRoutes.version_or_default p)
             "connected")
          None (Some "Service is healthy")),
     db).
Proof.
  unfold HealthRoutes.get_health, HealthRoutes.databaseStatus, try_catch,
    bind.
  destruct (getStats_returns db) as [s Hs]. rewrite Hs. reflexivity.
Qed.

(** ** Matching the task text *)

Lemma prefix_append (x a b : string) :
  String.prefix x a = true -> String.prefix x (a ++ b) = true.
Proof.
  revert a. induction x as [|c x IH]; intros a.
  - intros _. now destruct (a ++ b).
  - destruct a as [|d a]; simpl; [discriminate|].
    destruct (ascii_dec c d); [apply IH|discriminate].
Qed.

Lemma prefix_self (a b : string) : String.prefix a (a ++ b) = true.
Proof.
  induction a as [|c a IH]; simpl; [now destruct b|].
  destruct (ascii_dec c c); [exact IH|contradiction].
Qed.

Lemma includes_append_l (a b x : string) :
  includes a x = true -> includes (a ++ b) x = true.
Proof.
  induction a as [|c a IH]; simpl.
  - rewrite orb_false_r. destruct x; [|discriminate].
    intros _. now destruct b.
  - intros H. apply orb_true_iff in H. apply orb_true_iff.
    destruct H as [H|H]; [left|right; now apply IH].
    now apply (prefix_append x (String c a) b).
Qed.

Lemma includes_append_r (a b x : string) :
  includes b x = true -> includes (a ++ b) x = true.
Proof.
  intros H. induction a as [|c a IH]; simpl; [exact H|].
  rewrite IH. apply orb_true_r.
Qed.

Lemma includes_self (a : string) : includes a a = true.
Proof.
  destruct a; simpl; [reflexivity|].
  apply orb_true_iff. left.
  destruct (ascii_dec a a); [|contradiction].
  rewrite <- (prefix_self a0 EmptyString) at 1.
  f_equal. induction a0; simpl; [reflexivity|now f_equal].
Qed.

Lemma includes_middle (a x b : string) : includes (a ++ x ++ b) x = true.
Proof.
  apply includes_append_r, includes_append_l, includes_self.
Qed.

Lemma toLowerCase_append (a b : string) :
  toLowerCase (a ++ b) = toLowerCase a ++ toLowerCase b.
Proof. induction a as [|c a IH]; simpl; [reflexivity|now rewrite IH]. Qed.

Lemma includes_any_case (pre p post phrase : string) :
  toLowerCase p = phrase ->
  includes (toLowerCase (pre ++ p ++ post)) phrase = true.
Proof.
  intros <-. rewrite !toLowerCase_append. apply includes_middle.
Qed.

(** X17: the simulation recognises its phrases anywhere in the task and in
    any mix of ASCII letter case, and the first phrase wins: a task that
    contains [analyze leads] is answered with the lead analysis report
    whatever else it contains; one that contains [summarize calls] and not
    the first phrase, with the call summary; one that contains
    [update client report] and neither of the others, with the client
    report update. *)
Theorem simulation_matches_anywhere (w : AIService.World)
    (pre p post : string) (context : option string)
    (priority : option Priority) :
  let task := pre ++ p ++ post in
  let answer :=
    AIService.simulateTaskProcessing w
      (TaskRequest.mk task context priority) in
  (toLowerCase p = "analyze leads" ->
   exists r, answer = Returned r
             /\ TaskResponse.response r = AIService.leadAnalysisReport)
  /\ (toLowerCase p = "summarize calls" ->
      includes (toLowerCase task) "analyze leads" = false ->
      exists r, answer = Returned r
                /\ TaskResponse.response r = AIService.callSummaryReport)
  /\ (toLowerCase p = "update client report" ->
      includes (toLowerCase task) "analyze leads" = false ->
      includes (toLowerCase task) "summarize calls" = false ->
      exists r, answer = Returned r
                /\ TaskResponse.response r = AIService.clientReportUpdate).
Proof.
  cbv zeta. unfold AIService.simulateTaskProcessing.
  cbn [TaskRequest.task]. split; [|split].
  - intros Hp. eexists. split; [reflexivity|].
    cbn [TaskResponse.response].
    now rewrite (includes_any_case pre p post _ Hp).
  - intros Hp H1. eexists. split; [reflexivity|].
    cbn [TaskResponse.response].
    now rewrite H1, (includes_any_case pre p post _ Hp).
  - intros Hp H1 H2. eexists. split; [reflexivity|].
    cbn [TaskResponse.response].
    now rewrite H1, H2, (includes_any_case pre p post _ Hp).
Qed.

Lemma simulation_matches_anywhere_witness :
  exists r,
    AIService.simulateTaskProcessing Examples.offline
      (TaskRequest.mk ("Please " ++ "ANALYZE Leads" ++ " and summarize calls")
         None None)
    = Returned r
    /\ TaskResponse.response r = AIService.leadAnalysisReport.
Proof.
  apply (proj1 (simulation_matches_anywhere Examples.offline "Please "
                  "ANALYZE Leads" " and summarize calls" None None)).
  reflexivity.
Defined.

(** X18: [getSystemPrompt] looks for its keywords anywhere in the task, in
    any mix of ASCII letter case, and in a fixed order: a task that
    contains [analyze] or [analysis] gets the analysis instruction even if
    it also names leads, clients, reports or summaries. *)
Theorem system_prompt_analysis_first (pre p post : string) :
  toLowerCase p = "analyze" \/ toLowerCase p = "analysis" ->
  AIService.getSystemPrompt (pre ++ p ++ post) = AIService.analysisPrompt.
Proof.
  intros [Hp|Hp]; unfold AIService.getSystemPrompt;
    rewrite (includes_any_case pre p post _ Hp); [reflexivity|].
  now rewrite orb_true_r.
Qed.

Lemma system_prompt_analysis_first_witness :
  AIService.getSystemPrompt ("Client lead " ++ "Analysis" ++ " report")
  = AIService.analysisPrompt.
Proof.
  apply (system_prompt_analysis_first "Client lead " "Analysis" " report").
  right. reflexivity.
Defined.

Lemma includes_lines (ls : list string) (l x : string) :
  In l ls -> includes l x = true -> includes (lines ls) x = true.
Proof.
  unfold lines. intros Hin Hx.
  induction ls as [|y ls IH]; [contradiction|].
  destruct Hin as [->|Hin].
  - destruct ls as [|z ls]; simpl; [exact Hx|].
    now apply includes_append_l.
  - destruct ls as [|z ls]; [contradiction|].
    change (String.concat LF (y :: z :: ls))
      with (y ++ LF ++ String.concat LF (z :: ls)).
    apply includes_append_r, includes_append_r. now apply IH.
Qed.

(** X19: a task in which the simulation recognises none of its three
    phrases is answered with an acknowledgement that embeds the task text
    as it was given, the priority ([medium] when the request has none) and,
    when the request has one that is not empty, the context. *)
Theorem acknowledgement_embeds_request (w : AIService.World)
    (request : TaskRequest.t) :
  let taskLower := toLowerCase (TaskRequest.task request) in
  includes taskLower "analyze leads" = false ->
  includes taskLower "summarize calls" = false ->
  includes taskLower "update client report" = false ->
  exists r,
    AIService.simulateTaskProcessing w request = Returned r
    /\ includes (TaskResponse.response r)
         (dquote ++ TaskRequest.task request ++ dquote) = true
    /\ includes (TaskResponse.response r)
         (AIService.priority_or_medium request) = true
    /\ (forall c, TaskRequest.context request = Some c ->
                  c <> EmptyString ->
                  includes (TaskResponse.response r) c = true).
Proof.
  cbv zeta. intros H1 H2 H3.
  unfold AIService.simulateTaskProcessing. rewrite H1, H2, H3.
  eexists. split; [reflexivity|]. cbn [TaskResponse.response].
  unfold AIService.acknowledgement. split; [|split].
  - eapply includes_lines; [left; reflexivity|].
    apply includes_append_r, includes_self.
  - eapply includes_lines; [do 4 right; left; reflexivity|].
    apply includes_append_r, includes_self.
  - intros c Hc Hne. rewrite Hc.
    eapply includes_lines; [do 6 right; left; reflexivity|].
    destruct c as [|a c]; [contradiction|]. cbn [truthy_str isEmpty negb].
    apply includes_append_r, includes_self.
Qed.

Lemma acknowledgement_embeds_request_witness :
  exists r,
    AIService.simulateTaskProcessing Examples.offline
      (TaskRequest.mk "review sales performance" (Some "Q4 sales data")
         (Some high))
    = Returned r
    /\ includes (TaskResponse.response r)
         (dquote ++ "review sales performance" ++ dquote) = true
    /\ includes (TaskResponse.response r) "high" = true
    /\ includes (TaskResponse.response r) "Q4 sales data" = true.
Proof.
  destruct (acknowledgement_embeds_request Examples.offline
              (TaskRequest.mk "review sales performance"
                 (Some "Q4 sales data") (Some high)))
    as [r [H1 [H2 [H3 H4]]]]; try reflexivity.
  exists r. split; [exact H1|]. split; [exact H2|]. split; [exact H3|].
  apply (H4 "Q4 sales data"); [reflexivity|discriminate].
Defined.

(** ** What the backend answered *)

(** X20: [processTask] wraps the content of the first choice of the
    completion as the response, with status [success] and the model named
    in the metadata; when the completion has no choice, or its first choice
    has no message, no content or an empty content, the response is the
    text [No response generated], still with status [success]; when the
    completion has no [choices] at all, reading it throws and the result
    has status [error]. *)
Theorem completion_edges (w : AIService.World) (request : TaskRequest.t)
    (completion : AIService.ChatCompletion) :
  (forall params, AIService.create w params = Returned completion) ->
  exists r,
    AIService.processTask w request = Returned r
    /\ match AIService.choices completion with
       | None =>
           TaskResponse.status r = "error"
           /\ TaskResponse.response r
              = "Error processing task: "
                ++ "Cannot read properties of undefined (reading '0')"
       | Some
           (AIService.mkChoice
              (Some (AIService.mkMessage (Some (String a c)))) :: _) =>
           TaskResponse.status r = "success"
           /\ TaskResponse.response r = String a c
           /\ prop "model" (TaskResponse.metadata r)
              = Some (Str "gpt-3.5-turbo")
       | Some _ =>
           TaskResponse.status r = "success"
           /\ TaskResponse.response r = "No response generated"
       end.
Proof.
  intros H. unfold AIService.processTask, AIService.generateResponse.
  rewrite H.
  destruct (AIService.choices completion) as [[|[[[[[|a c]|]]|]] cs]|];
    eexists; (split; [reflexivity|]); repeat split.
Qed.

Lemma completion_edges_witness :
  exists r,
    AIService.processTask
      (AIService.mkWorld "0b0f6c1e-0000-4000-8000-000000000002" 1000 1900
         "2024-05-01T10:00:09.000Z" "5/1/2024, 10:00:09 AM"
         (fun _ => Returned (AIService.mkChatCompletion (Some []))))
      (TaskRequest.mk "analyze leads" None None)
    = Returned r
    /\ TaskResponse.status r = "success"
    /\ TaskResponse.response r = "No response generated".
Proof.
  destruct (completion_edges
              (AIService.mkWorld "0b0f6c1e-0000-4000-8000-000000000002"
                 1000 1900 "2024-05-01T10:00:09.000Z"
                 "5/1/2024, 10:00:09 AM"
                 (fun _ => Returned (AIService.mkChatCompletion (Some []))))
              (TaskRequest.mk "analyze leads" None None)
              (AIService.mkChatCompletion (Some [])))
    as [r [H1 H2]]; [reflexivity|].
  exists r. split; [exact H1|exact H2].
Defined.

(** X21: the user prompt sent to the backend contains the task of the
    request, and its context and its priority when the request has them
    (a context that is the empty string is left out). *)
Theorem user_prompt_contains_request (request : TaskRequest.t) :
  includes (AIService.buildUserPrompt request)
    ("Task: " ++ TaskRequest.task request) = true
  /\ (forall c, TaskRequest.context request = Some c -> c <> EmptyString ->
        includes (AIService.buildUserPrompt request) ("Context: " ++ c)
        = true)
  /\ (forall p, TaskRequest.priority request = Some p ->
        includes (AIService.buildUserPrompt request)
          ("Priority: " ++ priority_text p) = true).
Proof.
  unfold AIService.buildUserPrompt.
  destruct request as [task context priority].
  cbn [TaskRequest.task TaskRequest.context TaskRequest.priority].
  set (prompt1 :=
         match context with
         | Some c =>
             if truthy_str (Some c)
             then "Task: " ++ task ++ LF ++ LF ++ "Context: " ++ c
             else "Task: " ++ task
         | None => "Task: " ++ task
         end).
  assert (H1 : includes prompt1 ("Task: " ++ task) = true).
  { subst prompt1. destruct context as [[|a c]|];
      cbn [truthy_str isEmpty negb]; try apply includes_self.
    apply (includes_append_l ("Task: " ++ task) _ ("Task: " ++ task)),
      includes_self. }
  assert (H2 : forall c, context = Some c -> c <> EmptyString ->
                 includes prompt1 ("Context: " ++ c) = true).
  { intros c -> Hc. subst prompt1. destruct c as [|a c]; [contradiction|].
    cbn [truthy_str isEmpty negb].
    apply (includes_append_r ("Task: " ++ task)).
    apply (includes_append_r LF), (includes_append_r LF), includes_self. }
  assert (E : forall x, ("Task: " ++ task) ++ x = "Task: " ++ task ++ x)
    by reflexivity.
  destruct priority as [p|]; (split; [|split]).
  - apply includes_append_l. destruct context as [[|a c]|]; exact H1.
  - intros c Hc Hne. apply includes_append_l.
    specialize (H2 c Hc Hne). destruct context as [[|a c']|]; exact H2.
  - intros p' [= <-].
    apply includes_append_r, includes_append_r, includes_append_r,
      includes_self.
  - destruct context as [[|a c]|]; exact H1.
  - intros c Hc Hne. specialize (H2 c Hc Hne).
    destruct context as [[|a c']|]; exact H2.
  - discriminate.
Qed.

Lemma user_prompt_contains_request_witness :
  includes
    (AIService.buildUserPrompt
       (TaskRequest.mk "analyze leads" (Some "Q4 sales data") (Some high)))
    "Context: Q4 sales data" = true.
Proof.
  apply (proj1 (proj2 (user_prompt_contains_request
                         (TaskRequest.mk "analyze leads"
                            (Some "Q4 sales data") (Some high))))
           "Q4 sales data"); [reflexivity|discriminate].
Defined.

(** ** The command line *)

Section Swallow.
Context {A : Type} (c : M A).

Lemma swallowed (db : Db) :
  exists db',
    try_catch (bind c (fun _ => ret tt)) (fun _ => ret tt) db
    = (Returned tt, db').
Proof.
  unfold try_catch, bind, ret.
  destruct (c db) as [[a|e] db']; eexists; reflexivity.
Qed.
End Swallow.

Lemma cli_processTask_returns (key : option string) (w : AIService.World)
    (input : string) (db : Db) :
  exists db', CLI.processTask key w input db = (Returned tt, db').
Proof.
  unfold CLI.processTask, try_catch, bind.
  destruct (TaskRoutes.await _ db) as [[r|e] db1]; [|eexists; reflexivity].
  destruct (DatabaseService.saveInteractionLog _ db1) as [[[]|e] db2];
    eexists; reflexivity.
Qed.

Lemma cli_deleteLog_returns (i : string) (db : Db) :
  exists db', CLI.deleteLog i db = (Returned tt, db').
Proof.
  unfold CLI.deleteLog.
  destruct (negb (truthy (Str i)) || (String.length (trim i) =? 0)%nat);
    [eexists; reflexivity|apply swallowed].
Qed.

(** X22: no line of input makes the command line throw, whatever the state
    of the storage: a fault of the storage and a failure of the strategy
    are caught.  The loop ends on [exit] and [quit] only (in any letter
    case, surrounded by any white space); on these, on [help], [logs],
    [stats], [clear] and on a blank line the table is not changed. *)
Theorem cli_never_throws (OPENAI_API_KEY : option string)
    (w : AIService.World) (input : string) (db : Db) :
  let command := toLowerCase (trim input) in
  exists n db',
    CLI.promptUser OPENAI_API_KEY w input db = (Returned n, db')
    /\ (n = CLI.Exit <-> command = "exit" \/ command = "quit")
    /\ (In command
          ["exit"; "quit"; "help"; "logs"; "stats"; "clear"; EmptyString] ->
        db' = db).
Proof.
  cbv zeta. unfold CLI.promptUser.
  set (command := toLowerCase (trim input)).
  destruct (String.eqb_spec command "exit") as [E1|E1].
  { exists CLI.Exit, db. repeat split; auto. }
  destruct (String.eqb_spec command "quit") as [E2|E2].
  { exists CLI.Exit, db. repeat split; auto. }
  cbn [orb].
  assert (Hn : CLI.Prompt = CLI.Exit <-> command = "exit" \/ command = "quit")
    by (split; [discriminate|intros [H|H]; contradiction]).
  destruct (String.eqb_spec command "help") as [E3|E3].
  { exists CLI.Prompt, db. repeat split; tauto. }
  destruct (String.eqb_spec command "logs") as [E4|E4].
  { exists CLI.Prompt, db. split; [|split; [exact Hn|reflexivity]].
    unfold CLI.showLogs, try_catch, bind.
    destruct db as [rows [e|]]; reflexivity. }
  destruct (String.eqb_spec command "stats") as [E5|E5].
  { exists CLI.Prompt, db. split; [|split; [exact Hn|reflexivity]].
    unfold CLI.showStats, try_catch, bind.
    destruct (getStats_returns db) as [s Hs]. now rewrite Hs. }
  destruct (String.eqb_spec command "clear") as [E6|E6].
  { exists CLI.Prompt, db. repeat split; tauto. }
  assert (Hdb : forall db' : Db,
             In command
               ["exit"; "quit"; "help"; "logs"; "stats"; "clear";
                EmptyString] ->
             command <> EmptyString -> db' = db).
  { intros db' H Hne. simpl in H.
    repeat (destruct H as [H|H];
            [symmetry in H; contradiction|]).
    destruct H. }
  destruct (String.eqb_spec command "clear-all") as [E7|E7].
  { destruct (swallowed DatabaseService.deleteAllInteractionLogs db)
      as [db' Hc].
    exists CLI.Prompt, db'. split; [|split; [exact Hn|]].
    - unfold bind at 1. unfold CLI.clearAllLogs. now rewrite Hc.
    - intros H. apply Hdb; [exact H|]. rewrite E7. discriminate. }
  destruct (String.eqb_spec command EmptyString) as [E8|E8].
  { exists CLI.Prompt, db. repeat split; tauto. }
  destruct (String.prefix "delete " command).
  - destruct (cli_deleteLog_returns (trim (CLI.substring 7 input)) db)
      as [db' Hc].
    exists CLI.Prompt, db'. split; [|split; [exact Hn|]].
    + unfold bind. now rewrite Hc.
    + intros H. now apply Hdb.
  - destruct (cli_processTask_returns OPENAI_API_KEY w input db)
      as [db' Hc].
    exists CLI.Prompt, db'. split; [|split; [exact Hn|]].
    + unfold bind. now rewrite Hc.
    + intros H. now apply Hdb.
Qed.

Lemma cli_never_throws_witness :
  exists n db',
    CLI.promptUser None Examples.offline "  STATS " Examples.faulty
    = (Returned n, db')
    /\ db' = Examples.faulty.
Proof.
  destruct (cli_never_throws None Examples.offline "  STATS "
              Examples.faulty) as [n [db' [H1 [_ H2]]]].
  exists n, db'. split; [exact H1|]. apply H2. simpl. auto 10.
Defined.

(** X23: a line that is not a command is processed as a task, as it was
    typed (it is not trimmed), with priority [medium] and no context; with
    the storage sound and the uuid drawn not yet an id of the table, the
    table gains exactly one row, which has no user agent and no address. *)
Theorem cli_task_is_logged (OPENAI_API_KEY : option string)
    (w : AIService.World) (input : string) (rows : list Row) :
  let command := toLowerCase (trim input) in
  ~ In command
      ["exit"; "quit"; "help"; "logs"; "stats"; "clear"; "clear-all";
       EmptyString] ->
  String.prefix "delete " command = false ->
  ~ In (AIService.uuidv4 w) (map id rows) ->
  exists r row,
    Flow.strategy OPENAI_API_KEY w
      (TaskRequest.mk input None (Some medium)) = Returned r
    /\ CLI.promptUser OPENAI_API_KEY w input (mkDb rows None)
       = (Returned CLI.Prompt, mkDb (rows ++ [row])%list None)
    /\ id row = AIService.uuidv4 w
    /\ task row = input
    /\ response row = TaskResponse.response r
    /\ status row = TaskResponse.status r
    /\ user_agent row = None
    /\ ip_address row = None.
Proof.
  cbv zeta. intros Hcmd Hdel Hid.
  destruct (strategy_returns OPENAI_API_KEY w
              (TaskRequest.mk input None (Some medium)))
    as [r [Hr [Hrid [Hrtask Hst]]]].
  set (log := InteractionLog.mk (TaskResponse.id r) (TaskResponse.task r)
                (TaskResponse.response r) (TaskResponse.status r)
                (TaskResponse.timestamp r) (TaskResponse.processingTime r)
                None None (TaskResponse.metadata r)).
  assert (Hfresh : ~ In (InteractionLog.id log) (map id rows))
    by (simpl; now rewrite Hrid).
  destruct (save_then_get rows log Hfresh Hst) as [Hsave _].
  exists r, (DatabaseService.row_of_log log).
  split; [exact Hr|]. split; [|repeat split; assumption].
  unfold CLI.promptUser.
  set (command := toLowerCase (trim input)) in *.
  simpl in Hcmd.
  repeat match goal with
         | |- context [String.eqb command ?s] =>
             destruct (String.eqb_spec command s);
             [exfalso; apply Hcmd; subst command; auto 10|]
         end.
  cbn [orb]. rewrite Hdel.
  unfold bind at 1. unfold CLI.processTask, try_catch, bind.
  unfold Flow.strategy in Hr. rewrite Hr. cbn [TaskRoutes.await ret]. fold log.
  now rewrite Hsave.
Qed.

Lemma cli_task_is_logged_witness :
  exists row,
    CLI.promptUser None Examples.offline " xyz123" Examples.healthy
    = (Returned CLI.Prompt,
       mkDb (interaction_logs Examples.healthy ++ [row])%list None)
    /\ task row = " xyz123".
Proof.
  destruct (cli_task_is_logged None Examples.offline " xyz123"
              (interaction_logs Examples.healthy))
    as [r [row [_ [H1 [_ [H2 _]]]]]].
  - simpl. intuition discriminate.
  - reflexivity.
  - simpl. intuition discriminate.
  - exists row. split; [exact H1|exact H2].
Defined.

(** X24: a line of white space only is ignored by the command line: the
    loop goes on, nothing is processed and the connection is what it
    was. *)
Theorem cli_blank_line (OPENAI_API_KEY : option string)
    (w : AIService.World) (input : string) (db : Db) :
  Store.WhiteSpaceOnly input ->
  CLI.promptUser OPENAI_API_KEY w input db = (Returned CLI.Prompt, db).
Proof.
  intros H. unfold CLI.promptUser.
  now rewrite (trim_whitespace_only input H).
Qed.

Lemma cli_blank_line_witness :
  CLI.promptUser None Examples.offline "   " Examples.healthy
  = (Returned CLI.Prompt, Examples.healthy).
Proof.
  apply cli_blank_line.
  apply (Store.ws_more " " "  "); [simpl; auto 10|].
  apply (Store.ws_more " " " "); [simpl; auto 10|].
  apply (Store.ws_more " " EmptyString); [simpl; auto 10|].
  apply Store.ws_empty.
Defined.

(** ** The two ratios in doubles *)

Lemma nearest_even_close (q : Q) :
  (Qabs (inject_Z (Binary64.nearest_even q) - q) <= 1 # 2)%Q.
Proof.
  pose proof (Qfloor_le q) as Hlo.
  pose proof (Qlt_floor q) as Hhi.
  rewrite inject_Z_plus in Hhi.
  change (inject_Z 1) with 1%Q in Hhi.
  apply Qabs_Qle_condition.
  unfold Binary64.nearest_even.
  destruct (Qcompare_spec (q - inject_Z (Qfloor q)) (1 # 2)) as [E|E|E].
  - destruct (Z.even (Qfloor q)).
    + lra.
    + rewrite inject_Z_plus. change (inject_Z 1) with 1%Q. lra.
  - lra.
  - rewrite inject_Z_plus. change (inject_Z 1) with 1%Q. lra.
Qed.

Lemma two_power (a b : Z) : (2 ^ (a + b) == 2 ^ a * 2 ^ b)%Q.
Proof. apply Qpower_plus. discriminate. Qed.

Lemma two_power_pos (a : Z) : (0 < 2 ^ a)%Q.
Proof. apply Qpower_0_lt. reflexivity. Qed.

Lemma log2_lower (n : Z) : 0 < n -> (2 ^ Z.log2 n <= inject_Z n)%Q.
Proof.
  intros H. destruct (Z.log2_spec n H) as [H1 _].
  rewrite <- (Zpower_Qpower 2) by apply Z.log2_nonneg.
  now rewrite <- Zle_Qle.
Qed.

Lemma log2_upper (n : Z) : 0 < n -> (inject_Z n <= 2 ^ (Z.log2 n + 1))%Q.
Proof.
  intros H. destruct (Z.log2_spec n H) as [_ H1].
  rewrite <- (Zpower_Qpower 2) by (pose proof (Z.log2_nonneg n); lia).
  rewrite <- Zle_Qle. unfold Z.succ in H1. lia.
Qed.

Lemma exponent_spec (q : Q) :
  (0 < q)%Q -> (2 ^ 52 * 2 ^ Binary64.exponent q <= q)%Q.
Proof.
  intros Hq. unfold Binary64.exponent.
  set (e := Z.log2 (Qnum q) - Z.log2 (Z.pos (Qden q)) - 53).
  destruct (Qle_bool (2 ^ (e + 53)) q) eqn:E.
  - apply Qle_bool_iff in E.
    rewrite <- two_power. now replace (52 + (e + 1)) with (e + 53) by lia.
  - clear E.
    assert (Hn : 0 < Qnum q).
    { destruct q as [n d]. unfold Qlt in Hq. simpl in *. lia. }
    pose proof (log2_lower (Qnum q) Hn) as H1.
    pose proof (log2_upper (Z.pos (Qden q)) eq_refl) as H2.
    rewrite <- two_power.
    replace (52 + e)
      with (Z.log2 (Qnum q) - (Z.log2 (Z.pos (Qden q)) + 1))
      by (unfold e; lia).
    rewrite Qpower_minus by discriminate.
    destruct q as [n d]. cbn [Qnum Qden] in *.
    rewrite (Qmake_Qdiv n d).
    pose proof (two_power_pos (Z.log2 (Z.pos d) + 1)) as P1.
    pose proof (two_power_pos (Z.log2 n)) as P2.
    assert (P3 : (0 < inject_Z (Z.pos d))%Q) by reflexivity.
    apply Qle_shift_div_l; [exact P3|].
    unfold Qdiv. rewrite <- Qmult_assoc, (Qmult_comm (/ _)), Qmult_assoc.
    apply Qle_shift_div_r; [exact P1|].
    apply Qmult_le_compat_nonneg; split;
      try assumption; apply Qlt_le_weak; assumption.
Qed.

Lemma round_positive_error (q : Q) :
  (0 < q)%Q ->
  (Qabs (Binary64.round_positive q - q) <= (1 # 2 ^ 53) * q)%Q.
Proof.
  intros Hq. unfold Binary64.round_positive.
  pose proof (exponent_spec q Hq) as He.
  set (e := Binary64.exponent q) in *.
  pose proof (two_power_pos e) as Pe.
  pose proof (nearest_even_close (q / 2 ^ e)) as Hm.
  set (m := inject_Z (Binary64.nearest_even (q / 2 ^ e))) in *.
  assert (Hx : (q == q / 2 ^ e * 2 ^ e)%Q) by (field; lra).
  set (x := (q / 2 ^ e)%Q) in *.
  apply Qabs_Qle_condition in Hm. destruct Hm as [Hm1 Hm2].
  change (2 ^ 52)%Q with (4503599627370496 # 1)%Q in He.
  change (1 # 2 ^ 53)%Q with (1 # 9007199254740992)%Q.
  apply Qabs_Qle_condition.
  assert (H1 : ((m - x) * 2 ^ e <= (1 # 2) * 2 ^ e)%Q)
    by (apply Qmult_le_compat_r; lra).
  assert (H2 : (- (1 # 2) * 2 ^ e <= (m - x) * 2 ^ e)%Q)
    by (apply Qmult_le_compat_r; lra).
  set (p := (2 ^ e)%Q) in *.
  setoid_replace (m * p - q)%Q with ((m - x) * p)%Q
    by (rewrite Hx at 1; ring).
  split; lra.
Qed.

Lemma round_error (q : Q) :
  (Qabs (Binary64.round q - q) <= (1 # 2 ^ 53) * Qabs q)%Q.
Proof.
  unfold Binary64.round. destruct q as [[|n|n] d]; cbn [Qnum].
  - apply Qabs_Qle_condition.
    assert (E : (0 # d == 0)%Q) by reflexivity.
    rewrite E. cbn. split; discriminate.
  - assert (Hq : (0 < Z.pos n # d)%Q) by reflexivity.
    rewrite (Qabs_pos (Z.pos n # d)) by (apply Qlt_le_weak; exact Hq).
    now apply round_positive_error.
  - assert (Hq : (0 < - (Z.neg n # d))%Q) by reflexivity.
    pose proof (round_positive_error _ Hq) as H.
    rewrite (Qabs_neg (Z.neg n # d)) by discriminate.
    rewrite <- Qabs_opp.
    setoid_replace
      (- (- Binary64.round_positive (- (Z.neg n # d)) - (Z.neg n # d)))%Q
      with (Binary64.round_positive (- (Z.neg n # d)) - - (Z.neg n # d))%Q
      by ring.
    exact H.
Qed.

Lemma scaled_within_tolerance (a exact : Q) :
  (exact == 100 * a)%Q ->
  Store.within_tolerance (Binary64.mul (Binary64.round a) 100) exact.
Proof.
  intros E. unfold Store.within_tolerance, Binary64.mul, Store.tolerance.
  pose proof (round_error a) as H1.
  pose proof (round_error (Binary64.round a * 100)) as H2.
  set (r1 := Binary64.round a) in *.
  set (r2 := Binary64.round (r1 * 100)) in *.
  rewrite E. clear E.
  assert (HA : (Qabs (100 * a) == 100 * Qabs a)%Q)
    by (rewrite Qabs_Qmult; reflexivity).
  assert (HB : (Qabs (r1 * 100) == 100 * Qabs r1)%Q)
    by (rewrite Qabs_Qmult, Qmult_comm; reflexivity).
  rewrite HA. rewrite HB in H2.
  pose proof (Qabs_nonneg a) as PA.
  assert (H3 : (Qabs r1 <= Qabs a + (1 # 2 ^ 53) * Qabs a)%Q).
  { setoid_replace r1 with (a + (r1 - a))%Q by ring.
    eapply Qle_trans; [apply Qabs_triangle|]. lra. }
  change (1 # 2 ^ 53)%Q with (1 # 9007199254740992)%Q in *.
  change (1 # 2 ^ 51)%Q with (1 # 2251799813685248)%Q.
  apply Qabs_Qle_condition in H1, H2.
  apply Qabs_Qle_condition.
  set (A := Qabs a) in *. set (B := Qabs r1) in *.
  split; lra.
Qed.

Lemma quotient_within_tolerance (q exact : Q) :
  (exact == q)%Q -> Store.within_tolerance (Binary64.round q) exact.
Proof.
  intros E. unfold Store.within_tolerance, Store.tolerance. rewrite E.
  eapply Qle_trans; [apply round_error|].
  apply Qmult_le_compat_r; [discriminate|apply Qabs_nonneg].
Qed.

(** X25: with its two ratios computed in doubles, as the code computes
    them, [getStats] on a non-empty table (sound storage, fewer than 2^53
    rows, processing times not negative and of sum below 2^53) returns
    [totalInteractions = N], a [successRate] within the tolerance 2^-51 of
    [100*S/N] and an [averageProcessingTime] within the same tolerance of
    the sum of the processing times over N.  The rate need not be the
    double nearest to [100*S/N]: on the three example rows, two of them
    successes, it is 4691249611844266 / 2^46 (printed 66.66666666666666),
    the double just below the one nearest to 200/3. *)
Theorem getStats_in_doubles :
  (forall rows : list Row,
     rows <> [] ->
     Z.of_nat (List.length rows) < 2 ^ 53 ->
     Forall (fun r => 0 <= processing_time r) rows ->
     Store.total_time rows < 2 ^ 53 ->
     exists st,
       Binary64.getStats (mkDb rows None) = (Returned st, mkDb rows None)
       /\ DatabaseService.totalInteractions st
          = Z.of_nat (List.length rows)
       /\ Store.within_tolerance (DatabaseService.successRate st)
            (100 * Store.Qnat (Store.success_count rows)
             / Store.Qnat (List.length rows))
       /\ Store.within_tolerance (DatabaseService.averageProcessingTime st)
            (inject_Z (Store.total_time rows)
             / Store.Qnat (List.length rows)))
  /\ (exists st,
        Binary64.getStats Examples.healthy = (Returned st, Examples.healthy)
        /\ (DatabaseService.successRate st
            == 4691249611844266 # 2 ^ 46)%Q
        /\ (DatabaseService.successRate st < 200 # 3)%Q
        /\ (Binary64.round (200 # 3) == 4691249611844267 # 2 ^ 46)%Q).
Proof.
  split.
  - intros rows Hne HN Htimes Hsum.
    destruct rows as [|r rows]; [contradiction|].
    set (all := r :: rows) in *.
    set (N := List.length all) in *.
    assert (HN0 : 0 < Z.of_nat N) by (unfold N, all; simpl; lia).
    eexists. split; [|split; [|split]].
    + unfold Binary64.getStats, try_catch, bind, select_stats.
      rewrite prepare_healthy. cbn [fst snd all ret]. reflexivity.
    + cbn [DatabaseService.totalInteractions number_or total List.length].
      change (Z.of_nat (S (List.length rows))) with (Z.of_nat N).
      destruct (Z.of_nat N =? 0) eqn:E; [lia|reflexivity].
    + cbn [DatabaseService.successRate total success
           DatabaseService.to_number List.length].
      change (Z.of_nat (S (List.length rows))) with (Z.of_nat N).
      replace (Z.of_nat N >? 0) with true by (symmetry; apply Z.gtb_lt; lia).
      rewrite SUM_case_success. unfold Binary64.div.
      apply scaled_within_tolerance.
      unfold Store.Qnat, Qdiv. fold N. ring.
    + cbn [DatabaseService.averageProcessingTime avg_time option_map
           List.length].
      change (Z.of_nat (S (List.length rows))) with (Z.of_nat N).
      rewrite SUM_processing_time.
      unfold Store.within_tolerance. rewrite or_zero_some.
      apply quotient_within_tolerance. reflexivity.
  - eexists. split; [reflexivity|]. vm_compute. repeat split; discriminate.
Qed.

Lemma getStats_in_doubles_witness :
  exists st,
    Binary64.getStats Examples.healthy = (Returned st, Examples.healthy)
    /\ DatabaseService.totalInteractions st = 3
    /\ Store.within_tolerance (DatabaseService.successRate st) (200 # 3).
Proof.
  destruct (proj1 getStats_in_doubles (interaction_logs Examples.healthy))
    as [st [H1 [H2 [H3 _]]]].
  - discriminate.
  - reflexivity.
  - repeat constructor; discriminate.
  - reflexivity.
  - exists st. split; [exact H1|]. split; [exact H2|].
    unfold Store.within_tolerance in *.
    assert (E : (200 # 3
                 == 100 * Store.Qnat
                            (Store.success_count
                               (interaction_logs Examples.healthy))
                    / Store.Qnat
                        (List.length (interaction_logs Examples.healthy)))%Q)
      by reflexivity.
    rewrite E. exact H3.
Defined.
